(** * Botanical auto uploader: folder-name parsing, state store, normalizer

    A shallow embedding of the pure core of the uploader

      - [core/folder_utils.py]        : [folder_utils.parse_folder_name]
      - [pipeline/processor.py]       : [processor.parse_folder_name],
                                        [classify_files]
      - [core/product_normalizer.py]  : [clean_title], [clean_tags],
                                        [clean_materials],
                                        [normalize_product]
      - [core/state_store.py]         : [StateStore]
      - [pipeline/loader.py]          : [find_new_product_folders]
      - [run_once.py]                 : the first step of [main]
      - [core/etsy_exporter.py]       : [product_to_etsy_row]

    together with the properties the specification states about them.

    Python values are modelled as follows.  A [str] is the list of its
    code points ([list N]); the interpreter's white space class is the one
    of [str.isspace].  An exception is a value of [exn] carried by
    [pyresult].  A [dict] with string keys is a [gmap], which leaves the
    order of the keys out; a [set] is a [gset].  A [float] is a binary64
    value, the kernel's primitive float;
    a price read from JSON is an [int] or a [float].  Some builtins are
    not defined here but taken as parameters, because their tables belong
    to the interpreter: [float()] on strings and on [int], [str.lower]
    and [str.upper].  Concrete instances ([float_dec], [float_bin],
    [int_to_float], [ascii_lower], [ascii_upper]) are given so that every
    definition can be run. *)

From Stdlib Require Import String Ascii QArith Floats.
From stdpp Require Import base option list gmap sorting lexico.

Local Open Scope N_scope.
Local Open Scope list_scope.

(** ** Strings *)

Abbreviation pystr := (list N).

(** [py "abc"] is the [str] whose code points are those of the ASCII
    literal. *)
Definition py (s : string) : pystr :=
  (fun a => N_of_ascii a) <$> list_ascii_of_string s.

(** [str.isspace] on one code point (the interpreter's
    [_PyUnicode_IsWhitespace]); [strip], [split] without separator and the
    regular expression class [\s] all use it. *)
Definition isspace (c : N) : bool :=
  ((0x09 <=? c) && (c <=? 0x0D)) || ((0x1C <=? c) && (c <=? 0x20))
  || (c =? 0x85) || (c =? 0xA0) || (c =? 0x1680)
  || ((0x2000 <=? c) && (c <=? 0x200A))
  || (c =? 0x2028) || (c =? 0x2029) || (c =? 0x202F) || (c =? 0x205F)
  || (c =? 0x3000).

Fixpoint lstrip (s : pystr) : pystr :=
  match s with
  | [] => []
  | c :: s' => if isspace c then lstrip s' else s
  end.

Fixpoint rstrip (s : pystr) : pystr :=
  match s with
  | [] => []
  | c :: s' =>
      match rstrip s' with
      | [] => if isspace c then [] else [c]
      | r => c :: r
      end
  end.

(** [s.strip()] *)
Definition strip (s : pystr) : pystr := rstrip (lstrip s).

(** Truth value of a [str]: [if s] *)
Definition nonempty (s : pystr) : bool :=
  match s with [] => false | _ => true end.

(** [c in s] for a one-character [c] *)
Definition contains (c : N) (s : pystr) : bool := bool_decide (c ∈ s).

Definition cons_head (c : N) (l : list pystr) : list pystr :=
  match l with
  | [] => [[c]]
  | h :: t => (c :: h) :: t
  end.

(** [s.split(c)] for a one-character separator *)
Fixpoint split (c : N) (s : pystr) : list pystr :=
  match s with
  | [] => [[]]
  | x :: s' => if x =? c then [] :: split c s' else cons_head x (split c s')
  end.

(** [s.split(c, n)]: at most [n] cuts, counted from the left *)
Fixpoint split_max (c : N) (s : pystr) (n : nat) : list pystr :=
  match n with
  | O => [s]
  | S n' =>
      match s with
      | [] => [[]]
      | x :: s' =>
          if x =? c then [] :: split_max c s' n'
          else cons_head x (split_max c s' n)
      end
  end.

(** Cut at the last occurrence of [c], when there is one *)
Fixpoint cut_last (c : N) (s : pystr) : option (pystr * pystr) :=
  match s with
  | [] => None
  | x :: s' =>
      match cut_last c s' with
      | Some (l, r) => Some (x :: l, r)
      | None => if x =? c then Some ([], s') else None
      end
  end.

(** [s.rsplit(c, 1)] *)
Definition rsplit1 (c : N) (s : pystr) : list pystr :=
  match cut_last c s with
  | Some (l, r) => [l; r]
  | None => [s]
  end.

(** [s.rpartition(c)] *)
Definition rpartition (c : N) (s : pystr) : pystr * pystr * pystr :=
  match cut_last c s with
  | Some (l, r) => (l, [c], r)
  | None => ([], [], s)
  end.

(** [sep.join(parts)] for a one-character [sep] *)
Fixpoint join (sep : N) (parts : list pystr) : pystr :=
  match parts with
  | [] => []
  | [p] => p
  | p :: rest => p ++ sep :: join sep rest
  end.

(** [re.split] on a pattern [[...]+] given by its character class: the
    string is cut at every maximal run of characters of the class. *)
Fixpoint re_split_runs (cls : N -> bool) (in_run : bool) (s : pystr)
  : list pystr :=
  match s with
  | [] => [[]]
  | x :: s' =>
      if cls x then
        if in_run then re_split_runs cls true s'
        else [] :: re_split_runs cls true s'
      else cons_head x (re_split_runs cls false s')
  end.

Definition hyphen : N := 0x2D.
Definition underscore : N := 0x5F.
Definition comma : N := 0x2C.

(** ** Exceptions *)

Inductive exn : Set :=
  | IndexError | ValueError | TypeError | AttributeError | KeyError
  | OverflowError.

Inductive pyresult (A : Type) : Type :=
  | Ok (a : A)
  | Raise (e : exn).
Arguments Ok {A} a.
Arguments Raise {A} e.

Global Instance pyresult_ret : MRet pyresult := fun A a => Ok a.
Global Instance pyresult_bind : MBind pyresult := fun A B k r =>
  match r with
  | Ok a => k a
  | Raise e => Raise e
  end.

(** [try: r  except Exception: handler] *)
Definition try_except {A} (r : pyresult A) (handler : exn -> A) : A :=
  match r with
  | Ok a => a
  | Raise e => handler e
  end.

(** [l[i]] for [i >= 0] and [l[-1]] *)
Definition getitem {A} (l : list A) (i : nat) : pyresult A :=
  match l !! i with
  | Some a => Ok a
  | None => Raise IndexError
  end.

Definition getitem_last {A} (l : list A) : pyresult A :=
  match last l with
  | Some a => Ok a
  | None => Raise IndexError
  end.

(** [l[1:-1]] *)
Definition slice_1_m1 {A} (l : list A) : list A :=
  take (length l - 2) (drop 1 l).

(** ** core/folder_utils.py *)

Module folder_utils.
Section Parser.
(** [float(s)]: [None] stands for [ValueError], the only exception
    [float] raises on a [str]. *)
Context {F : Type} (float : pystr -> option F).

(** First stage of [parse_folder_name]: cut the price off at the last
    underscore. *)
Definition price_stage (name : pystr) : pyresult (pystr * option F) :=
  if contains underscore name then
    match rsplit1 underscore name with
    | [left_; price_part] =>
        let price_part := strip price_part in
        let price := float price_part in
        Ok (left_, price)
    | _ => Raise ValueError
    end
  else Ok (name, None).

(** Second stage: cut the left part at the hyphens. *)
Definition hyphen_stage (left_ : pystr) (price : option F)
  : pyresult (pystr * pystr * pystr * option F) :=
  let parts := split hyphen left_ in
  let parts := strip <$> filter (fun p => nonempty (strip p) = true) parts in
  if bool_decide (length parts = 1%nat) then
    series ← getitem parts 0;
    Ok ([], [], series, price)
  else if bool_decide (length parts = 2%nat) then
    match parts with
    | [product_type; materials_str] =>
        Ok (product_type, materials_str, [], price)
    | _ => Raise ValueError
    end
  else
    product_type ← getitem parts 0;
    series ← getitem_last parts;
    let materials_str := join hyphen (slice_1_m1 parts) in
    Ok (product_type, materials_str, series, price).

Definition parse_folder_name (name : pystr)
  : pyresult (pystr * pystr * pystr * option F) :=
  '(left_, price) ← price_stage name;
  hyphen_stage left_ price.
End Parser.
End folder_utils.

(** ** pipeline/processor.py *)

Module processor.
Section Parser.
Context {F : Type} (float : pystr -> option F).

(** The [dict] that [parse_folder_name] returns has exactly these four
    keys. *)
Record parsed := {
  product_type : pystr;
  materials_raw : pystr;
  series : pystr;
  price : option F
}.

(** Second half of [parse_folder_name]: at most two cuts at hyphens. *)
Definition hyphen_stage (base_part : pystr) (price : option F) : parsed :=
  let parts := split_max hyphen base_part 2 in
  {| product_type := if bool_decide (0 < length parts)%nat
                     then strip (parts !!! 0%nat) else [];
     materials_raw := if bool_decide (1 < length parts)%nat
                      then strip (parts !!! 1%nat) else [];
     series := if bool_decide (2 < length parts)%nat
               then strip (parts !!! 2%nat) else [];
     price := price |}.

Definition parse_folder_name (name : pystr) : parsed :=
  let name := strip name in
  let '(base_part, sep, price_part) := rpartition underscore name in
  let '(base_part, price) :=
    if nonempty sep then (base_part, float price_part)
    else (name, None) in
  hyphen_stage base_part price.

(** The four values of the [dict], in the order of the tuple of
    [folder_utils.parse_folder_name]. *)
Definition as_tuple (d : parsed) : pystr * pystr * pystr * option F :=
  (product_type d, materials_raw d, series d, price d).
End Parser.
Arguments parsed : clear implicits.
End processor.

(** ** A runnable instance of [float]

    [float_dec] accepts what [float()] accepts among plain decimal
    literals: optional sign, digits with at most one point, surrounded by
    the white space [float()] itself skips (every [isspace] character but
    U+001C to U+001F).  Its value is the exact rational.  Exponents, digit
    separators, [inf] and [nan] are outside this fragment. *)

Definition float_space (c : N) : bool :=
  isspace c && negb ((0x1C <=? c) && (c <=? 0x1F)).

Definition is_digit (c : N) : bool := (0x30 <=? c) && (c <=? 0x39).

Fixpoint digits_value (acc : Z) (s : pystr) : option Z :=
  match s with
  | [] => Some acc
  | c :: s' =>
      if is_digit c then digits_value (10 * acc + Z.of_N (c - 0x30))%Z s'
      else None
  end.

Fixpoint cut_first (c : N) (s : pystr) : option (pystr * pystr) :=
  match s with
  | [] => None
  | x :: s' =>
      if x =? c then Some ([], s')
      else match cut_first c s' with
           | Some (l, r) => Some (x :: l, r)
           | None => None
           end
  end.

Definition unsigned_dec (s : pystr) : option Q :=
  match cut_first 0x2E s with
  | None =>
      if nonempty s then (fun z => z # 1) <$> digits_value 0 s else None
  | Some (i, f) =>
      if nonempty (i ++ f) then
        (fun z => z # Z.to_pos (10 ^ Z.of_nat (length f))) <$>
          digits_value 0 (i ++ f)
      else None
  end.

Fixpoint skip_float_space (s : pystr) : pystr :=
  match s with
  | [] => []
  | c :: s' => if float_space c then skip_float_space s' else s
  end.

Definition float_dec (s : pystr) : option Q :=
  let s := reverse (skip_float_space (reverse (skip_float_space s))) in
  match s with
  | 0x2B :: r => unsigned_dec r
  | 0x2D :: r => Qopp <$> unsigned_dec r
  | _ => unsigned_dec s
  end.

(** Runnable instances of [str.lower] and [str.upper]: the ASCII letters. *)
Definition ascii_lower (s : pystr) : pystr :=
  (fun c => if (0x41 <=? c) && (c <=? 0x5A) then c + 0x20 else c) <$> s.

Definition ascii_upper (s : pystr) : pystr :=
  (fun c => if (0x61 <=? c) && (c <=? 0x7A) then c - 0x20 else c) <$> s.

(** ** Runnable instances of [float] with binary64 values

    [int_to_float] is [float()] on an [int]: the nearest binary64 value,
    ties to even, and [OverflowError] ([None]) when that is beyond the
    largest finite one.  [float_bin] is [float()] on the strings of
    [float_dec] and on [nan], [inf] and [infinity] in any letter case,
    with an optional sign: the nearest binary64 value of the decimal
    literal, ties to even.  [ratio_to_float z d] rounds [z / d], for
    [z >= 0], from a quotient of more than 60 bits and a sticky bit.
    Exponents, digit separators and digits outside ASCII are outside this
    fragment. *)
Definition Z_to_float (z : Z) : PrimFloat.float :=
  SF2Prim (binary_normalize 53 1024 z 0 false).

Definition ratio_to_float (z : Z) (d : positive) : PrimFloat.float :=
  let s := Z.max 0 (64 + Z.log2 (Zpos d) - Z.log2 z) in
  let n := (z * 2 ^ s)%Z in
  let q := (n / Zpos d)%Z in
  let sticky := if (n mod Zpos d =? 0)%Z then 0%Z else 1%Z in
  SF2Prim (binary_normalize 53 1024 (2 * q + sticky) (- (s + 1)) false).

Definition int_to_float (z : Z) : option PrimFloat.float :=
  let f := Z_to_float z in
  if PrimFloat.is_infinity f then None else Some f.

Definition float_word (s : pystr) : option PrimFloat.float :=
  let w := ascii_lower s in
  if bool_decide (w = py "nan") then Some PrimFloat.nan
  else if bool_decide (w = py "inf") || bool_decide (w = py "infinity")
       then Some PrimFloat.infinity
       else None.

Definition unsigned_bin (s : pystr) : option PrimFloat.float :=
  match unsigned_dec s with
  | Some q => Some (ratio_to_float (Qnum q) (Qden q))
  | None => float_word s
  end.

Definition float_bin (s : pystr) : option PrimFloat.float :=
  let s := reverse (skip_float_space (reverse (skip_float_space s))) in
  match s with
  | 0x2B :: r => unsigned_bin r
  | 0x2D :: r => PrimFloat.opp <$> unsigned_bin r
  | _ => unsigned_bin s
  end.

(** ** JSON values, as [json.load] returns them *)

#[local] Set Warnings "-register-all".

Inductive json : Type :=
  | JNull
  | JBool (b : bool)
  | JNum (q : Q)
  | JStr (s : pystr)
  | JArr (l : list json)
  | JObj (m : gmap pystr json).

(** ** Numbers

    A [float] is an IEEE 754 binary64 value, the kernel's primitive
    [PrimFloat.float]: it has the infinities, the signed zeros and NaN, and
    its comparisons are the interpreter's.  A JSON number is an [int] when
    its literal is an integer and a [float] otherwise; [json.loads] accepts
    [NaN], [Infinity] and [-Infinity] as floats. *)
Inductive number : Set :=
  | NInt (z : Z)
  | NFloat (f : PrimFloat.float).

(** ** core/folder_context.py *)

Record FolderContext := {
  folder_id : pystr;
  folder_name : pystr;
  created_time : pystr;
  product_type : pystr;
  raw_materials_str : pystr;
  series : pystr;
  price_from_name : option PrimFloat.float;
  image_files : list json;
  note_file : option json;
  other_files : list json;
  note_text : pystr
}.

(** ** core/product_normalizer.py *)

(** [MATERIALS_MAPPING]; the keys are written by their code points. *)
Definition MATERIALS_MAPPING : gmap pystr pystr :=
  list_to_map [
    ([0x767D; 0x82B7], py "white angelica root");
    ([0x7518; 0x8349], py "licorice root");
    ([0x677E; 0x679C], py "pine cone");
    ([0x6849; 0x6811; 0x679C], py "eucalyptus pod");
    ([0x4E94; 0x773C; 0x679C], py "five-eye fruit");
    ([0x767D; 0x4E94; 0x773C; 0x679C], py "white five-eye fruit");
    ([0x9ED1; 0x4E94; 0x773C; 0x679C], py "black five-eye fruit");
    ([0x677E; 0x9488], py "pine needle");
    ([0x94F6; 0x674F; 0x53F6], py "ginkgo leaf");
    ([0x67AB; 0x53F6], py "maple leaf");
    ([0x6811; 0x8102], py "resin");
    ([0x5408; 0x91D1], py "alloy");
    ([0x91D1; 0x5C5E], py "metal");
    ([0x94F6], py "silver");
    ([0x91D1], py "gold");
    ([0x94DC], py "copper")
  ].

Definition translate_material (chinese_name : pystr) : pystr :=
  let chinese_name := strip chinese_name in
  default chinese_name (MATERIALS_MAPPING !! chinese_name).

(** [s < t] on [str]: lexicographic on code points. *)
Definition str_lt : relation pystr := lexico.
Definition str_le : relation pystr := fun s t => s = t \/ str_lt s t.

Global Instance str_le_dec s t : Decision (str_le s t).
Proof. unfold str_le, str_lt. apply _. Defined.

(** [sorted(l)] on a list of [str] *)
Definition sorted (l : list pystr) : list pystr := merge_sort str_le l.

(** [re.sub(r'\s+', ' ', s)] *)
Fixpoint collapse_spaces (in_run : bool) (s : pystr) : pystr :=
  match s with
  | [] => []
  | c :: s' =>
      if isspace c then
        if in_run then collapse_spaces true s'
        else 0x20 :: collapse_spaces true s'
      else c :: collapse_spaces false s'
  end.

(** [sep.join(parts)] for any separator *)
Fixpoint join_str (sep : pystr) (parts : list pystr) : pystr :=
  match parts with
  | [] => []
  | [p] => p
  | p :: rest => p ++ sep ++ join_str sep rest
  end.

Definition care_instructions_block : pystr :=
  strip (
    [0x0A] ++ py "    " ++ [0x0A] ++
    py "Care Instructions:" ++ [0x0A] ++
    py "- Store in a dry place away from direct sunlight" ++ [0x0A] ++
    py "- Avoid contact with water and chemicals" ++ [0x0A] ++
    py "- Clean gently with a soft, dry cloth" ++ [0x0A] ++
    py "- Handle with care as botanical materials are delicate" ++ [0x0A]).

(** The draft returned by the model, with the keys and value types of the
    response contract; [None] is an absent key (for [price], which is read
    with [get] and compared to [None], a [null] as well).  The price is a
    JSON number, [int] or [float]. *)
Record AiJson := {
  ai_id_from_drive : option pystr;
  ai_title : option pystr;
  ai_description : option pystr;
  ai_short_description : option pystr;
  ai_price : option number;
  ai_currency : option pystr;
  ai_quantity : option Z;
  ai_tags : option (list pystr);
  ai_materials : option (list pystr);
  ai_colors : option (list pystr);
  ai_style : option pystr;
  ai_product_type : option pystr;
  ai_category : option pystr;
  ai_series : option pystr;
  ai_who_made : option pystr;
  ai_when_made : option pystr
}.

(** ** core/product_schema.py *)

(** The fields that [normalize_product] sets; the other fields of the
    dataclass keep their defaults. *)
Record ProductDraft := {
  pd_id : pystr;
  pd_title : pystr;
  pd_description : pystr;
  pd_short_description : pystr;
  pd_price : PrimFloat.float;
  pd_currency : pystr;
  pd_quantity : Z;
  pd_tags : list pystr;
  pd_materials : list pystr;
  pd_colors : list pystr;
  pd_style : pystr;
  pd_product_type : pystr;
  pd_category : pystr;
  pd_series : pystr;
  pd_brand_name : pystr;
  pd_care_instructions : pystr;
  pd_handmade : bool;
  pd_made_to_order : bool;
  pd_who_made : pystr;
  pd_when_made : pystr;
  pd_raw_ai_json : AiJson;
  pd_notes : pystr
}.

Section Normalizer.
(** [str.lower] and [str.upper] *)
Context (lower upper : pystr -> pystr).
(** [float()] on an [int]; [None] stands for [OverflowError], the only
    exception it raises there. *)
Context (float_of_int : Z -> option PrimFloat.float).

Definition clean_title (title : pystr) : pystr :=
  if negb (nonempty title) then []
  else
    let title := collapse_spaces false title in
    let title := strip title in
    if nonempty title then
      if bool_decide (1 < length title)%nat
      then upper (take 1 title) ++ drop 1 title
      else upper title
    else title.

(** The loop of [clean_tags]; [cleaned] and [seen] are its two
    variables. *)
Fixpoint clean_tags_loop (max_count : nat) (tags : list pystr)
    (cleaned : list pystr) (seen : gset pystr) : list pystr :=
  match tags with
  | [] => cleaned
  | tag :: rest =>
      let tag := lower (strip tag) in
      if nonempty tag && bool_decide (tag ∉ seen) then
        let cleaned := cleaned ++ [tag] in
        let seen := {[tag]} ∪ seen in
        if bool_decide (max_count <= length cleaned)%nat then cleaned
        else clean_tags_loop max_count rest cleaned seen
      else clean_tags_loop max_count rest cleaned seen
  end.

Definition clean_tags_max (tags : list pystr) (max_count : nat)
  : list pystr :=
  match tags with
  | [] => []
  | _ => clean_tags_loop max_count tags [] ∅
  end.

(** [clean_tags(tags)], with the default [max_count = 13] *)
Definition clean_tags (tags : list pystr) : list pystr :=
  clean_tags_max tags 13.

Definition materials_class (c : N) : bool :=
  (c =? hyphen) || (c =? comma) || isspace c.

Definition clean_materials (materials : list pystr)
    (folder_ctx : FolderContext) : list pystr :=
  let all_materials : gset pystr := ∅ in
  let all_materials :=
    foldl (fun acc mat =>
             if nonempty mat then
               let mat := strip mat in
               let translated := translate_material mat in
               {[translated]} ∪ acc
             else acc)
          all_materials materials in
  let all_materials :=
    if nonempty (raw_materials_str folder_ctx) then
      let raw_materials :=
        re_split_runs materials_class false (raw_materials_str folder_ctx) in
      foldl (fun acc mat =>
               let mat := strip mat in
               if nonempty mat then
                 let translated := translate_material mat in
                 {[translated]} ∪ acc
               else acc)
            all_materials raw_materials
    else all_materials in
  sorted (elements all_materials).

Definition build_description (ai_description : pystr)
    (folder_ctx : FolderContext) : pystr :=
  let parts := [] in
  let parts :=
    if nonempty ai_description then parts ++ [strip ai_description]
    else parts in
  let parts := parts ++ [care_instructions_block] in
  join_str [0x0A; 0x0A] parts.

(** [x or y] on strings *)
Definition or_str (x y : pystr) : pystr := if nonempty x then x else y.

(** [x or d] where [x] is a [float] or [None]: a [float] is false when
    it equals zero, so NaN is true. *)
Definition or_num (x : option PrimFloat.float) (d : PrimFloat.float)
  : PrimFloat.float :=
  match x with
  | Some q => if PrimFloat.eqb q 0 then d else q
  | None => d
  end.

(** [price <= 0] *)
Definition le_zero (price : number) : bool :=
  match price with
  | NInt z => (z <=? 0)%Z
  | NFloat f => PrimFloat.leb f 0
  end.

(** [float(price)] *)
Definition float_of (price : number) : pyresult PrimFloat.float :=
  match price with
  | NInt z =>
      match float_of_int z with
      | Some f => Ok f
      | None => Raise OverflowError
      end
  | NFloat f => Ok f
  end.

Definition normalize_product (ai_json : AiJson) (folder_ctx : FolderContext)
  : pyresult ProductDraft :=
  let product_type :=
    or_str (or_str (default [] (ai_product_type ai_json))
                   (product_type folder_ctx)) [] in
  let series :=
    or_str (or_str (default [] (ai_series ai_json)) (series folder_ctx)) [] in
  let price :=
    match ai_price ai_json with
    | None => NFloat (or_num (price_from_name folder_ctx) 0)
    | Some price =>
        if le_zero price
        then NFloat (or_num (price_from_name folder_ctx) 0)
        else price
    end in
  let title := clean_title (default [] (ai_title ai_json)) in
  let title := if negb (nonempty title) then folder_name folder_ctx
               else title in
  let description :=
    build_description (default [] (ai_description ai_json)) folder_ctx in
  let short_description :=
    strip (default [] (ai_short_description ai_json)) in
  let short_description :=
    if negb (nonempty short_description) then title
    else short_description in
  let tags := clean_tags_max (default [] (ai_tags ai_json)) 13 in
  let materials :=
    clean_materials (default [] (ai_materials ai_json)) folder_ctx in
  let colors :=
    (fun c => lower (strip c)) <$>
      filter (fun c => nonempty (strip c) = true)
             (default [] (ai_colors ai_json)) in
  let currency := default (py "USD") (ai_currency ai_json) in
  let quantity := default 1%Z (ai_quantity ai_json) in
  let who_made := default (py "i_did") (ai_who_made ai_json) in
  let when_made := default (py "made_to_order") (ai_when_made ai_json) in
  let style := strip (default [] (ai_style ai_json)) in
  let category :=
    or_str (or_str (default [] (ai_category ai_json)) product_type) [] in
  let brand_name := py "Wu Essence" in
  price ← float_of price;
  Ok
  {| pd_id := default (folder_id folder_ctx) (ai_id_from_drive ai_json);
     pd_title := title;
     pd_description := description;
     pd_short_description := short_description;
     pd_price := price;
     pd_currency := currency;
     pd_quantity := quantity;
     pd_tags := tags;
     pd_materials := materials;
     pd_colors := colors;
     pd_style := style;
     pd_product_type := product_type;
     pd_category := category;
     pd_series := series;
     pd_brand_name := brand_name;
     pd_care_instructions :=
       py "Store in a dry place away from direct sunlight. Avoid contact with water and chemicals.";
     pd_handmade := true;
     pd_made_to_order := true;
     pd_who_made := who_made;
     pd_when_made := when_made;
     pd_raw_ai_json := ai_json;
     pd_notes := or_str (note_text folder_ctx) [] |}.
End Normalizer.

(** ** core/state_store.py *)

Definition folders_key : pystr := py "folders".

(** [{"folders": {}}] *)
Definition empty_state : json := JObj {[ folders_key := JObj ∅ ]}.

Fixpoint is_prefix (p s : pystr) : bool :=
  match p, s with
  | [], _ => true
  | _ :: _, [] => false
  | a :: p', b :: s' => (a =? b) && is_prefix p' s'
  end.

(** [p in s] on two [str] *)
Fixpoint is_substring (p s : pystr) : bool :=
  is_prefix p s ||
  match s with
  | [] => false
  | _ :: s' => is_substring p s'
  end.

Definition is_str (k : pystr) (j : json) : bool :=
  match j with
  | JStr s => bool_decide (s = k)
  | _ => false
  end.

(** [k in j] for a string [k] and any value [j] *)
Definition py_in (k : pystr) (j : json) : pyresult bool :=
  match j with
  | JObj m => Ok (bool_decide (is_Some (m !! k)))
  | JArr l => Ok (existsb (is_str k) l)
  | JStr s => Ok (is_substring k s)
  | _ => Raise TypeError
  end.

(** [j[k] = v] for a string [k] *)
Definition setitem (j : json) (k : pystr) (v : json) : pyresult json :=
  match j with
  | JObj m => Ok (JObj (<[k := v]> m))
  | _ => Raise TypeError
  end.

(** [j.get(k, d)] *)
Definition dict_get (j : json) (k : pystr) (d : json) : pyresult json :=
  match j with
  | JObj m => Ok (default d (m !! k))
  | _ => Raise AttributeError
  end.

(** [j.keys()], as a set *)
Definition dict_keys (j : json) : pyresult (gset pystr) :=
  match j with
  | JObj m => Ok (dom m)
  | _ => Raise AttributeError
  end.

(** What the constructor finds at [filepath]: nothing ([None]), or a file
    whose opening and [json.load] give [r]: a value, or an exception. *)
Abbreviation backing := (option (pyresult json)).

Record StateStore := { _state : json }.

Definition _load (file : backing) : json :=
  match file with
  | Some r =>
      try_except
        (loaded ← r;
         present ← py_in folders_key loaded;
         if negb present then setitem loaded folders_key (JObj ∅)
         else Ok loaded)
        (fun e => empty_state)
  | None => empty_state
  end.

(** [StateStore(filepath)] *)
Definition StateStore_init (file : backing) : StateStore :=
  {| _state := _load file |}.

(** [_save] writes the whole state; the document it writes is returned
    next to the store. *)
Definition _save (self : StateStore) : json := _state self.

Definition get_processed_folder_ids (self : StateStore)
  : pyresult (gset pystr) :=
  folders ← dict_get (_state self) folders_key (JObj ∅);
  dict_keys folders.

Definition get_folder_record (self : StateStore) (folder_id : pystr)
  : pyresult json :=
  folders ← dict_get (_state self) folders_key (JObj ∅);
  dict_get folders folder_id (JObj ∅).

(** [platforms or {}] *)
Definition or_empty (platforms : option (gmap pystr json)) : gmap pystr json :=
  default ∅ platforms.

Definition folder_record (name status : pystr)
    (platforms : option (gmap pystr json)) : json :=
  JObj (<[py "name" := JStr name]>
        (<[py "status" := JStr status]>
         (<[py "platforms" := JObj (or_empty platforms)]> ∅))).

(** [mark_folder_status]: the new store and the document saved. *)
Definition mark_folder_status (self : StateStore)
    (folder_id name status : pystr) (platforms : option (gmap pystr json))
  : pyresult (StateStore * json) :=
  present ← py_in folders_key (_state self);
  st ← (if negb present then setitem (_state self) folders_key (JObj ∅)
        else Ok (_state self));
  folders ← (match st with
             | JObj m =>
                 match m !! folders_key with
                 | Some f => Ok f
                 | None => Raise KeyError
                 end
             | _ => Raise TypeError
             end);
  folders ← setitem folders folder_id (folder_record name status platforms);
  st ← setitem st folders_key folders;
  let self := {| _state := st |} in
  Ok (self, _save self).

(** [len(j)]: defined on objects, arrays and strings. *)
Definition py_len (j : json) : pyresult nat :=
  match j with
  | JObj m => Ok (size m)
  | JArr l => Ok (length l)
  | JStr s => Ok (length s)
  | _ => Raise TypeError
  end.

(** [j.items()], as a map *)
Definition dict_items (j : json) : pyresult (gmap pystr json) :=
  match j with
  | JObj m => Ok m
  | _ => Raise AttributeError
  end.

(** [status in status_filter] for the value of [rec.get("status")] and a
    list of [str]: only a string can be equal to a member. *)
Definition status_in (status : json) (status_filter : list pystr) : bool :=
  match status with
  | JStr s => bool_decide (s ∈ status_filter)
  | _ => false
  end.

(** [status_filter or ["pending", "failed"]] *)
Definition or_default_filter (status_filter : option (list pystr))
  : list pystr :=
  match status_filter with
  | Some (s :: l) => s :: l
  | _ => [py "pending"; py "failed"]
  end.

(** [list_unfinished_folders]; the messages it prints are left out, the
    [len(folders)] inside the first one is not, since it can raise. *)
Definition list_unfinished_folders (self : StateStore)
    (status_filter : option (list pystr)) : pyresult (gmap pystr json) :=
  let status_filter := or_default_filter status_filter in
  folders ← dict_get (_state self) folders_key (JObj ∅);
  _ ← py_len folders;
  items ← dict_items folders;
  map_fold (fun fid rec (result : pyresult (gmap pystr json)) =>
              result ← result;
              status ← dict_get rec (py "status") JNull;
              if status_in status status_filter
              then Ok (<[fid := rec]> result)
              else Ok result)
           (Ok ∅) items.

(** ** pipeline/loader.py *)

Module loader.

(** One entry of [DriveClient.list_subfolders]. *)
Record folder_meta := {
  id : pystr;
  name : pystr;
  createdTime : pystr
}.

(** [find_new_product_folders]; [file] is what lies at [STATE_STORE_FILE]
    and [all_folders] what the drive lists. *)
Definition find_new_product_folders (file : backing)
    (all_folders : list folder_meta) : pyresult (list folder_meta) :=
  let state := StateStore_init file in
  processed_ids ← get_processed_folder_ids state;
  let new_folders := filter (fun f => id f ∉ processed_ids) all_folders in
  Ok new_folders.

End loader.

(** ** run_once.py *)

Module run_once.

(** The loop of [main] that marks the new folders pending; [file] is what
    lies at [STATE_STORE_FILE], rewritten by every [mark_folder_status]. *)
Definition mark_pending (state : StateStore)
    (new_folders : list loader.folder_meta) (file : backing)
  : pyresult (StateStore * backing) :=
  foldl (fun acc folder =>
           '(state, file) ← acc;
           '(state, saved) ←
             mark_folder_status state (loader.id folder) (loader.name folder)
               (py "pending") (Some ∅);
           Ok (state, Some (Ok saved)))
        (Ok (state, file)) new_folders.

(** The first step of [main]: discover the new folders and mark them. *)
Definition first_step (file : backing)
    (all_folders : list loader.folder_meta)
  : pyresult (StateStore * backing) :=
  let state := StateStore_init file in
  new_folders ← loader.find_new_product_folders file all_folders;
  match new_folders with
  | [] => Ok (state, file)
  | _ => mark_pending state new_folders file
  end.

End run_once.

(** ** pipeline/processor.py, continued *)

(** [mime.startswith("image/")]: only a [str] has the method. *)
Definition startswith_image (mime : json) : pyresult bool :=
  match mime with
  | JStr s => Ok (is_prefix (py "image/") s)
  | _ => Raise AttributeError
  end.

(** [classify_files]: the two lists of the [dict] it returns, [images]
    and [others]. *)
Definition classify_files (files : list json)
  : pyresult (list json * list json) :=
  foldl (fun acc f =>
           '(images, others) ← acc;
           mime ← dict_get f (py "mimeType") (JStr []);
           is_image ← startswith_image mime;
           if is_image : bool then Ok (images ++ [f], others)
           else Ok (images, others ++ [f]))
        (Ok ([], [])) files.

(** The records that [process_new_folders_debug] sets out to process: it
    constructs its own store from what lies at [STATE_STORE_FILE] and asks
    it for the pending folders. *)
Definition pending_records (file : backing) : pyresult (gmap pystr json) :=
  let state := StateStore_init file in
  list_unfinished_folders state (Some [py "pending"]).

(** ** core/etsy_exporter.py *)

(** [str(n)] for an [int] that is not negative *)
Fixpoint decimal (fuel n : nat) : pystr :=
  match fuel with
  | O => []
  | S fuel' =>
      if (n <? 10)%nat then [0x30 + N.of_nat n]
      else decimal fuel' (n / 10) ++ [0x30 + N.of_nat (n mod 10)]
  end.

Definition str_nat (n : nat) : pystr := decimal (S n) n.

Global Instance json_inhabited : Inhabited json := populate JNull.

Section Exporter.
(** [str] on a [float] and on an [int] *)
Context (str_float : PrimFloat.float -> pystr) (str_int : Z -> pystr).

(** The loop over [image_files[:10]]. *)
Definition image_names_of (image_files : list json) : pyresult (list json) :=
  foldl (fun acc img_file =>
           image_names ← acc;
           name ← dict_get img_file (py "name") (JStr []);
           Ok (image_names ++ [name]))
        (Ok []) (take 10 image_files).

(** [while len(image_names) < 10: image_names.append("")] *)
Definition pad_names (image_names : list json) : list json :=
  image_names ++ replicate (10 - length image_names) (JStr []).

(** [f"image_{i+1}"] *)
Definition image_key (i : nat) : pystr := py "image_" ++ str_nat (i + 1).

(** [product_to_etsy_row] on a draft as [normalize_product] builds it:
    its [image_paths] is the empty list of the dataclass and its
    [taxonomy_id] the 0 of the dataclass, so that without image files no
    name is collected and the [taxonomy_id] cell is empty. *)
Definition product_to_etsy_row (product : ProductDraft)
    (image_files : option (list json)) : pyresult (gmap pystr json) :=
  image_names ←
    match image_files with
    | Some (f :: l) => image_names_of (f :: l)
    | _ => Ok []
    end;
  let image_names := pad_names image_names in
  let row : gmap pystr json :=
    <[py "processing_time" := JStr []]>
    (<[py "SKU" := JStr (pd_id product)]>
    (<[py "shipping_profile" := JStr []]>
    (<[py "shop_section" := JStr []]>
    (<[py "when_made" := JStr (pd_when_made product)]>
    (<[py "who_made" := JStr (pd_who_made product)]>
    (<[py "tags" := JStr (join_str (py ", ") (pd_tags product))]>
    (<[py "materials" := JStr (join_str (py ", ") (pd_materials product))]>
    (<[py "taxonomy_id" := JStr []]>
    (<[py "category" :=
         JStr (or_str (pd_category product) (pd_product_type product))]>
    (<[py "quantity" := JStr (str_int (pd_quantity product))]>
    (<[py "currency" := JStr (pd_currency product)]>
    (<[py "price" := JStr (str_float (pd_price product))]>
    (<[py "description" := JStr (pd_description product)]>
    (<[py "title" := JStr (pd_title product)]> ∅)))))))))))))) in
  let row :=
    foldl (fun row i =>
             <[image_key i :=
                 if bool_decide (i < length image_names)%nat
                 then image_names !!! i else JStr []]> row)
          row (seq 0 10) in
  Ok row.

(** The columns that [export_products_to_csv] writes, in its order. *)
Definition columns : list pystr :=
  [py "title"; py "description"; py "price"; py "currency"; py "quantity";
   py "category"; py "taxonomy_id"; py "materials"; py "tags";
   py "image_1"; py "image_2"; py "image_3"; py "image_4"; py "image_5";
   py "image_6"; py "image_7"; py "image_8"; py "image_9"; py "image_10";
   py "who_made"; py "when_made"; py "shop_section"; py "shipping_profile";
   py "SKU"; py "processing_time"].

End Exporter.

(** ** Vocabulary of the statements *)

(** A component of a folder name that the hyphen stage hands back
    unchanged: not empty, free of hyphens, without white space at its
    ends. *)
Definition token (t : pystr) : Prop :=
  t ≠ [] ∧ (hyphen ∉ t) ∧ strip t = t.

(** A hyphen token that is not blank. *)
Definition solid (t : pystr) : Prop :=
  (hyphen ∉ t) ∧ nonempty (strip t) = true.

(** Keep the first occurrence of every element, in order. *)
Fixpoint first_occurrences (l : list pystr) : list pystr :=
  match l with
  | [] => []
  | x :: l' => x :: filter (fun y => y <> x) (first_occurrences l')
  end.

(** The tags rule in the words of the specification: trim, lowercase, drop
    empty, deduplicate preserving first-seen order, truncate at 13. *)
Definition clean_tags_spec (lower : pystr -> pystr) (tags : list pystr)
  : list pystr :=
  take 13 (first_occurrences
             (filter (fun t => nonempty t = true)
                     ((fun t => lower (strip t)) <$> tags))).

(** The folder records of a store whose state has the documented shape:
    an object whose [folders] entry, if any, is an object. *)
Definition records (self : StateStore) : option (gmap pystr json) :=
  match _state self with
  | JObj m =>
      match m !! folders_key with
      | None => Some ∅
      | Some (JObj f) => Some f
      | Some _ => None
      end
  | _ => None
  end.

(** A context whose folder name gave nothing. *)
Definition bare_context (folder_id folder_name : pystr) : FolderContext :=
  {| folder_id := folder_id; folder_name := folder_name; created_time := [];
     product_type := []; raw_materials_str := []; series := [];
     price_from_name := None;
     image_files := []; note_file := None; other_files := [];
     note_text := [] |}.

(** An answer of the model with the given price and tags and no other
    key. *)
Definition answer_with (price : option number) (tags : option (list pystr))
  : AiJson :=
  {| ai_id_from_drive := None; ai_title := None; ai_description := None;
     ai_short_description := None; ai_price := price; ai_currency := None;
     ai_quantity := None; ai_tags := tags; ai_materials := None;
     ai_colors := None; ai_style := None; ai_product_type := None;
     ai_category := None; ai_series := None; ai_who_made := None;
     ai_when_made := None |}.

(** The context that [build_folder_context] assembles from a folder name,
    files left out. *)
Definition context_of_name (float : pystr -> option PrimFloat.float)
    (folder_id folder_name : pystr) : FolderContext :=
  let parsed := processor.parse_folder_name float folder_name in
  {| folder_id := folder_id; folder_name := folder_name; created_time := [];
     product_type := processor.product_type parsed;
     raw_materials_str := processor.materials_raw parsed;
     series := processor.series parsed;
     price_from_name := processor.price parsed;
     image_files := []; note_file := None; other_files := [];
     note_text := [] |}.

(** A state document with one folder, [f1], marked failed after an Etsy
    draft was made for it. *)
Definition sample_records : gmap pystr json :=
  {[ py "f1" :=
       JObj (<[py "name" := JStr (py "ring-resin_12")]>
             (<[py "status" := JStr (py "failed")]>
              (<[py "platforms" :=
                   JObj {[ py "etsy" :=
                             JObj {[ py "listing_id" := JStr (py "9") ]} ]}]>
               ∅))) ]}.

Definition sample_document : json :=
  JObj {[ folders_key := JObj sample_records ]}.

(** [rec.get("status")] of a stored record *)
Definition record_status (rec : json) : json :=
  match rec with
  | JObj m => default JNull (m !! py "status")
  | _ => JNull
  end.

Definition is_object (j : json) : Prop :=
  match j with
  | JObj _ => True
  | _ => False
  end.

(** The records whose status is a member of the filter. *)
Definition unfinished (status_filter : list pystr) (f : gmap pystr json)
  : gmap pystr json :=
  filter (fun ir => status_in (record_status ir.2) status_filter = true) f.

(** The record that the first step of [run_once] writes for a new folder. *)
Definition pending_record (x : loader.folder_meta) : json :=
  folder_record (loader.name x) (py "pending") (Some ∅).

(** The records after the folders of [l] were marked pending one after the
    other. *)
Definition add_pending (f : gmap pystr json) (l : list loader.folder_meta)
  : gmap pystr json :=
  foldl (fun acc x => <[loader.id x := pending_record x]> acc) f l.

(** A file entry that [classify_files] can read: an object whose
    [mimeType], when it has one, is a string; and whether it is an
    image. *)
Definition mime_of (f : json) : option pystr :=
  match f with
  | JObj m =>
      match m !! py "mimeType" with
      | None => Some []
      | Some (JStr s) => Some s
      | Some _ => None
      end
  | _ => None
  end.

Definition is_image (f : json) : bool :=
  match mime_of f with
  | Some s => is_prefix (py "image/") s
  | None => false
  end.

(** [f.get("name", "")] of a file entry that is an object *)
Definition name_of (f : json) : json :=
  match f with
  | JObj m => default (JStr []) (m !! py "name")
  | _ => JStr []
  end.


(** * Properties *)

(** ** Facts about the string builtins *)

Section StringFacts.
Implicit Types (s t a b l r : pystr) (c x : N).

Lemma lstrip_app a b :
  lstrip (a ++ b) = match lstrip a with [] => lstrip b | r => r ++ b end.
Proof.
  induction a as [|c a IH]; simpl; [by destruct (lstrip b)|].
  by destruct (isspace c).
Qed.

Lemma rstrip_app a b :
  rstrip (a ++ b) = match rstrip b with [] => rstrip a | r => a ++ r end.
Proof.
  induction a as [|c a IH]; simpl; [by destruct (rstrip b)|].
  rewrite IH. destruct (rstrip b) as [|y r]; [done|].
  by destruct a.
Qed.

Lemma lstrip_idem s : lstrip (lstrip s) = lstrip s.
Proof.
  induction s as [|c s IH]; simpl; [done|].
  destruct (isspace c) eqn:E; [done|]. simpl. by rewrite E.
Qed.

Lemma rstrip_idem s : rstrip (rstrip s) = rstrip s.
Proof.
  induction s as [|c s IH]; simpl; [done|].
  destruct (rstrip s) as [|y r] eqn:E.
  - destruct (isspace c) eqn:Ec; simpl; [done|]. by rewrite Ec.
  - change (rstrip (c :: y :: r)) with
      (match rstrip (y :: r) with
       | [] => if isspace c then [] else [c]
       | r' => c :: r' end).
    by rewrite IH.
Qed.

Lemma rstrip_cons_nonspace c s :
  isspace c = false -> rstrip (c :: s) = c :: rstrip s.
Proof. intros E. simpl. rewrite E. by destruct (rstrip s). Qed.

Lemma lstrip_rstrip s : rstrip (lstrip s) = lstrip (rstrip s).
Proof.
  induction s as [|c s IH]; simpl; [done|].
  destruct (isspace c) eqn:E.
  - rewrite IH. destruct (rstrip s) as [|y r]; simpl; [done|].
    by rewrite E.
  - simpl. destruct (rstrip s) as [|y r]; simpl; by rewrite E.
Qed.

Lemma strip_idem s : strip (strip s) = strip s.
Proof.
  unfold strip. rewrite <- (lstrip_rstrip (lstrip s)).
  by rewrite lstrip_idem, rstrip_idem.
Qed.

Lemma strip_lstrip s : strip (lstrip s) = strip s.
Proof. unfold strip. by rewrite lstrip_idem. Qed.

Lemma strip_rstrip s : strip (rstrip s) = strip s.
Proof. unfold strip. by rewrite <- lstrip_rstrip, rstrip_idem. Qed.

Lemma elem_of_lstrip x s : x ∈ lstrip s -> x ∈ s.
Proof.
  induction s as [|c s IH]; simpl; [done|].
  destruct (isspace c); [|done]. intros. right. auto.
Qed.

Lemma elem_of_rstrip x s : x ∈ rstrip s -> x ∈ s.
Proof.
  induction s as [|c s IH]; simpl; [done|].
  destruct (rstrip s) as [|y r].
  - destruct (isspace c); [by intros ?%elem_of_nil|].
    intros ->%list_elem_of_singleton. left.
  - intros [->|?]%elem_of_cons; [left|right; auto].
Qed.

Lemma elem_of_strip x s : x ∈ strip s -> x ∈ s.
Proof. intros ?%elem_of_rstrip%elem_of_lstrip. done. Qed.

(** A separator that is no white space stays where it is. *)
Lemma strip_around c l r :
  isspace c = false -> strip (l ++ c :: r) = lstrip l ++ c :: rstrip r.
Proof.
  intros E. unfold strip.
  assert (lstrip (l ++ c :: r) = lstrip l ++ c :: r) as ->.
  { rewrite lstrip_app. simpl. rewrite E. by destruct (lstrip l). }
  rewrite rstrip_app, (rstrip_cons_nonspace _ _ E). done.
Qed.

Lemma lstrip_around c l r :
  isspace c = false -> lstrip (l ++ c :: r) = lstrip l ++ c :: r.
Proof.
  intros E. rewrite lstrip_app. simpl. rewrite E. by destruct (lstrip l).
Qed.

Lemma rstrip_around c l r :
  isspace c = false -> rstrip (l ++ c :: r) = l ++ c :: rstrip r.
Proof.
  intros E. by rewrite rstrip_app, (rstrip_cons_nonspace _ _ E).
Qed.

Lemma cut_last_None c s : c ∉ s -> cut_last c s = None.
Proof.
  induction s as [|x s IH]; simpl; [done|].
  intros [Hx Hs]%not_elem_of_cons. rewrite (IH Hs).
  destruct (N.eqb_spec x c); congruence.
Qed.

Lemma cut_last_app c l r :
  c ∉ r -> cut_last c (l ++ c :: r) = Some (l, r).
Proof.
  intros Hr. induction l as [|x l IH]; simpl.
  - by rewrite (cut_last_None _ _ Hr), N.eqb_refl.
  - by rewrite IH.
Qed.

Lemma cut_last_Some c s l r :
  cut_last c s = Some (l, r) -> s = l ++ c :: r /\ c ∉ r.
Proof.
  revert l. induction s as [|x s IH]; intros l; simpl; [done|].
  destruct (cut_last c s) as [[l' r']|] eqn:E.
  - intros [= <- <-]. destruct (IH _ eq_refl) as [-> ?]. done.
  - destruct (N.eqb_spec x c) as [->|]; [|done].
    intros [= <- <-]. split; [done|].
    clear IH. induction s as [|y s IH]; [by intros ?%elem_of_nil|].
    simpl in E. destruct (cut_last c s) as [[??]|]; [done|].
    destruct (N.eqb_spec y c); [done|].
    intros [?|?]%elem_of_cons; [congruence|]. by apply IH.
Qed.

Lemma split_no_sep c t : c ∉ t -> split c t = [t].
Proof.
  induction t as [|x t IH]; simpl; [done|].
  intros [Hx Ht]%not_elem_of_cons. rewrite (IH Ht).
  destruct (N.eqb_spec x c); [congruence|done].
Qed.

Lemma split_app c t s : c ∉ t -> split c (t ++ c :: s) = t :: split c s.
Proof.
  induction t as [|x t IH]; simpl; [by rewrite N.eqb_refl|].
  intros [Hx Ht]%not_elem_of_cons. rewrite (IH Ht).
  destruct (N.eqb_spec x c); [congruence|done].
Qed.

Lemma split_join c ts :
  ts <> [] -> Forall (fun t => c ∉ t) ts -> split c (join c ts) = ts.
Proof.
  induction ts as [|t ts IH]; [done|]. intros _ [Ht Hts]%Forall_cons.
  destruct ts as [|t' ts]; [by apply split_no_sep|].
  change (join c (t :: t' :: ts)) with (t ++ c :: join c (t' :: ts)).
  rewrite split_app by done. f_equal. by apply IH.
Qed.

Lemma split_max_no_sep c t n : c ∉ t -> split_max c t n = [t].
Proof.
  destruct n as [|n]; [by destruct t|].
  induction t as [|x t IH]; simpl; [done|].
  intros [Hx Ht]%not_elem_of_cons. rewrite (IH Ht).
  destruct (N.eqb_spec x c); [congruence|done].
Qed.

Lemma split_max_app c t s n :
  c ∉ t -> split_max c (t ++ c :: s) (S n) = t :: split_max c s n.
Proof.
  induction t as [|x t IH]; simpl; [by rewrite N.eqb_refl|].
  intros [Hx Ht]%not_elem_of_cons. rewrite (IH Ht).
  destruct (N.eqb_spec x c); [congruence|done].
Qed.
End StringFacts.

(** ** The folder-name parsers *)

Ltac forall_list :=
  repeat (apply List.Forall_cons; [assumption|]); apply List.Forall_nil.

Section ParserFacts.
Context {F : Type} (float : pystr -> option F).
Implicit Types (name l p t : pystr) (ts : list pystr) (price : option F).

Lemma isspace_underscore : isspace underscore = false.
Proof. reflexivity. Qed.

Lemma isspace_hyphen : isspace hyphen = false.
Proof. reflexivity. Qed.

Lemma price_stage_suffix l p :
  underscore ∉ p ->
  folder_utils.price_stage float (l ++ underscore :: p)
  = Ok (l, float (strip p)).
Proof.
  intros Hp. unfold folder_utils.price_stage, contains, rsplit1.
  rewrite bool_decide_true by (apply elem_of_app; right; left).
  by rewrite cut_last_app.
Qed.

Lemma price_stage_plain name :
  underscore ∉ name -> folder_utils.price_stage float name = Ok (name, None).
Proof.
  intros Hn. unfold folder_utils.price_stage, contains.
  by rewrite bool_decide_false.
Qed.

Lemma filter_all {A} (P : A -> Prop) `{forall x, Decision (P x)} (xs : list A) :
  Forall P xs -> filter P xs = xs.
Proof.
  induction 1 as [|x xs Hx _ IH]; [done|].
  by rewrite filter_cons_True, IH.
Qed.

(** The list [parts] of the hyphen stage, for a left part made of
    non-blank tokens. *)
Lemma hyphen_parts ts :
  ts <> [] -> Forall solid ts ->
  strip <$> filter (fun q => nonempty (strip q) = true)
                   (split hyphen (join hyphen ts))
  = strip <$> ts.
Proof.
  intros Hne Hts. rewrite split_join; [|done|].
  - rewrite filter_all; [done|].
    eapply Forall_impl; [exact Hts|]. by intros t [_ ?].
  - eapply Forall_impl; [exact Hts|]. by intros t [? _].
Qed.

Lemma token_solid t : token t -> solid t.
Proof.
  intros (Hne & Hh & Hs). split; [done|]. rewrite Hs. by destruct t.
Qed.

Lemma tokens_fixed ts : Forall token ts -> strip <$> ts = ts.
Proof.
  induction 1 as [|t ts (_ & _ & Ht) _ IH]; [done|].
  by rewrite fmap_cons, Ht, IH.
Qed.

Lemma slice_middle {A} (x y : A) (m : list A) :
  slice_1_m1 (x :: m ++ [y]) = m.
Proof.
  unfold slice_1_m1. simpl. rewrite length_app. simpl.
  replace (length m + 1 - 1)%nat with (length m) by lia.
  by rewrite drop_0, take_app_length.
Qed.

Lemma getitem_last_snoc {A} (x y : A) (m : list A) :
  getitem_last (x :: m ++ [y]) = Ok y.
Proof.
  unfold getitem_last.
  change (x :: m ++ [y]) with ((x :: m) ++ [y]). by rewrite last_snoc.
Qed.

(** Three or more tokens: first, middle ones, last. *)
Lemma hyphen_stage_three t1 (ms : list pystr) tn price :
  ms <> [] -> Forall solid (t1 :: ms ++ [tn]) ->
  folder_utils.hyphen_stage (join hyphen (t1 :: ms ++ [tn])) price
  = Ok (strip t1, join hyphen (strip <$> ms), strip tn, price).
Proof.
  intros Hms Hts. unfold folder_utils.hyphen_stage.
  rewrite hyphen_parts by done.
  rewrite fmap_cons, fmap_app. simpl.
  rewrite !bool_decide_false.
  - by rewrite getitem_last_snoc, slice_middle.
  - rewrite length_app, length_fmap. simpl. destruct ms; [done|]. simpl. lia.
  - rewrite length_app, length_fmap. simpl. destruct ms; [done|]. simpl. lia.
Qed.

Lemma hyphen_stage_two t1 t2 price :
  solid t1 -> solid t2 ->
  folder_utils.hyphen_stage (join hyphen [t1; t2]) price
  = Ok (strip t1, strip t2, [], price).
Proof.
  intros H1 H2. unfold folder_utils.hyphen_stage.
  rewrite hyphen_parts; [done|done|]. forall_list.
Qed.

Lemma hyphen_stage_one t price :
  solid t ->
  folder_utils.hyphen_stage t price = Ok ([], [], strip t, price).
Proof.
  intros Ht. unfold folder_utils.hyphen_stage.
  assert (Forall solid [t]) as Hts by forall_list.
  pose proof (hyphen_parts [t] ltac:(done) Hts) as Hp. simpl in Hp.
  by rewrite Hp.
Qed.

(** No token left: the [else] branch reads [parts[0]] of an empty
    list. *)
Lemma hyphen_stage_blank l price :
  Forall (fun q => nonempty (strip q) = false) (split hyphen l) ->
  folder_utils.hyphen_stage l price = Raise IndexError.
Proof.
  intros Hb. unfold folder_utils.hyphen_stage.
  assert (filter (fun q => nonempty (strip q) = true) (split hyphen l) = [])
    as ->; [|done].
  induction Hb as [|q qs Hq _ IH]; [done|].
  rewrite filter_cons_False; [done|]. by rewrite Hq.
Qed.
End ParserFacts.

Ltac by_eval := first [reflexivity | compute_done].

(** [x ← Ok a; k x] steps to [k a]. *)
Ltac bind_ok :=
  match goal with
  | |- context [mbind ?k (Ok ?a)] =>
      change (mbind k (Ok a)) with (k a); cbv beta iota
  end.

Ltac token_eval :=
  repeat match goal with
         | |- token _ => split; [discriminate|split; by_eval]
         | |- Forall token _ => apply List.Forall_cons || apply List.Forall_nil
         | |- _ ∉ _ => by_eval
         end.

Section ProcessorFacts.
Context {F : Type} (float : pystr -> option F).
Implicit Types (name a b c p : pystr) (price : option F).

Lemma processor_price_cut name b p :
  strip name = b ++ underscore :: p -> underscore ∉ p ->
  processor.parse_folder_name float name
  = processor.hyphen_stage b (float p).
Proof.
  intros Hn Hp. unfold processor.parse_folder_name, rpartition.
  by rewrite Hn, cut_last_app.
Qed.

Lemma processor_plain name :
  underscore ∉ name ->
  processor.parse_folder_name float name
  = processor.hyphen_stage (strip name) None.
Proof.
  intros Hn. unfold processor.parse_folder_name, rpartition.
  rewrite cut_last_None; [done|]. by intros ?%elem_of_strip.
Qed.

Lemma processor_stage_two a b price :
  hyphen ∉ a -> hyphen ∉ b ->
  processor.hyphen_stage (a ++ hyphen :: b) price
  = {| processor.product_type := strip a;
       processor.materials_raw := strip b;
       processor.series := [];
       processor.price := price |}.
Proof.
  intros Ha Hb. unfold processor.hyphen_stage.
  by rewrite split_max_app, split_max_no_sep.
Qed.

(** The third part keeps whatever follows the second hyphen. *)
Lemma processor_stage_three a b c price :
  hyphen ∉ a -> hyphen ∉ b ->
  processor.hyphen_stage (a ++ hyphen :: b ++ hyphen :: c) price
  = {| processor.product_type := strip a;
       processor.materials_raw := strip b;
       processor.series := strip c;
       processor.price := price |}.
Proof.
  intros Ha Hb. unfold processor.hyphen_stage.
  rewrite !split_max_app by done.
  by destruct c.
Qed.
End ProcessorFacts.

(** The second parser on a name with a price part: product type and
    materials are the first two hyphen tokens, the series is all that
    follows the second hyphen. *)
Lemma processor_three_parts {F : Type} (float : pystr -> option F)
    (a b rest p : pystr) :
  hyphen ∉ a -> hyphen ∉ b -> underscore ∉ p ->
  processor.parse_folder_name float
    ((a ++ hyphen :: b ++ hyphen :: rest) ++ underscore :: p)
  = {| processor.product_type := strip a;
       processor.materials_raw := strip b;
       processor.series := strip rest;
       processor.price := float (rstrip p) |}.
Proof.
  intros Ha Hb Hp.
  rewrite (processor_price_cut float _
             (lstrip a ++ hyphen :: b ++ hyphen :: rest) (rstrip p)).
  - rewrite processor_stage_three; [|by intros ?%elem_of_lstrip|done].
    by rewrite strip_lstrip.
  - rewrite strip_around by apply isspace_underscore.
    by rewrite lstrip_around by apply isspace_hyphen.
  - by intros ?%elem_of_rstrip.
Qed.

(** C1, as the code has it.  For every folder name
    [type-materials-series_price] whose part after the last underscore is
    accepted by [float], the parser of [core/folder_utils.py] returns the
    first hyphen token as product type, the last one as series, the tokens
    between them joined by hyphens as materials, and the number as price;
    the name [necklace-pinecone-whiteberry-hillseries_39.9] gives
    [necklace], [pinecone-whiteberry], [hillseries] and the number of
    [39.9].  The parser of [pipeline/processor.py] returns the first hyphen
    token as product type, the second as materials and all that follows
    the second hyphen as series. *)
Theorem C1_parse_recovers_components {F : Type} (float : pystr -> option F) :
  (forall (product_type series : pystr) (materials : list pystr)
          (price_text : pystr) (price : F),
     token product_type -> Forall token materials -> materials <> [] ->
     token series ->
     underscore ∉ price_text -> float (strip price_text) = Some price ->
     folder_utils.parse_folder_name float
       (join hyphen (product_type :: materials ++ [series])
          ++ underscore :: price_text)
     = Ok (product_type, join hyphen materials, series, Some price))
  /\ (forall price : F,
        float (py "39.9") = Some price ->
        folder_utils.parse_folder_name float
          (py "necklace-pinecone-whiteberry-hillseries_39.9")
        = Ok (py "necklace", py "pinecone-whiteberry", py "hillseries",
              Some price))
  /\ (forall (product_type material rest price_text : pystr) (price : F),
        token product_type -> token material ->
        underscore ∉ price_text -> float (rstrip price_text) = Some price ->
        processor.as_tuple
          (processor.parse_folder_name float
             ((product_type ++ hyphen :: material ++ hyphen :: rest)
                ++ underscore :: price_text))
        = (product_type, material, strip rest, Some price)).
Proof.
  assert (forall (product_type series : pystr) (materials : list pystr)
                 (price_text : pystr) (price : F),
     token product_type -> Forall token materials -> materials <> [] ->
     token series ->
     underscore ∉ price_text -> float (strip price_text) = Some price ->
     folder_utils.parse_folder_name float
       (join hyphen (product_type :: materials ++ [series])
          ++ underscore :: price_text)
     = Ok (product_type, join hyphen materials, series, Some price)) as Hgen.
  { intros pt ser ms ptxt v Hpt Hms Hne Hser Hp Hv.
    unfold folder_utils.parse_folder_name.
    rewrite price_stage_suffix by done. bind_ok.
    rewrite hyphen_stage_three.
    - rewrite Hv, (tokens_fixed ms Hms).
      destruct Hpt as (_ & _ & ->). destruct Hser as (_ & _ & ->). done.
    - done.
    - apply List.Forall_cons; [by apply token_solid|].
      apply Forall_app. split.
      + eapply Forall_impl; [exact Hms|]. apply token_solid.
      + apply List.Forall_cons; [by apply token_solid|]. apply List.Forall_nil. }
  split; [exact Hgen|]. split.
  - intros price Hprice.
    apply (Hgen (py "necklace") (py "hillseries")
                [py "pinecone"; py "whiteberry"] (py "39.9") price);
      try done; token_eval.
  - intros pt m rest ptxt v (_ & Hpt & Hspt) (_ & Hm & Hsm) Hp Hv.
    rewrite processor_three_parts by done.
    unfold processor.as_tuple. simpl. by rewrite Hspt, Hsm, Hv.
Qed.

Lemma C1_witness :
  folder_utils.parse_folder_name float_dec
    (py "necklace-pinecone-whiteberry-hillseries_39.9")
  = Ok (py "necklace", py "pinecone-whiteberry", py "hillseries",
        Some 39.9%Q)
  /\ processor.as_tuple
       (processor.parse_folder_name float_dec
          (py "necklace-pinecone-whiteberry-hillseries_39.9"))
     = (py "necklace", py "pinecone", py "whiteberry-hillseries",
        Some 39.9%Q).
Proof.
  split.
  - apply (proj1 (C1_parse_recovers_components float_dec)
             (py "necklace") (py "hillseries")
             [py "pinecone"; py "whiteberry"] (py "39.9") 39.9%Q);
      try done; token_eval; reflexivity.
  - apply (proj2 (proj2 (C1_parse_recovers_components float_dec))
             (py "necklace") (py "pinecone") (py "whiteberry-hillseries")
             (py "39.9") 39.9%Q);
      try done; token_eval; reflexivity.
Defined.

(** On the specification's own name the parser of [pipeline/processor.py],
    the one [build_folder_context] calls, gives materials [pinecone] and
    series [whiteberry-hillseries], not [pinecone-whiteberry] and
    [hillseries]. *)
Lemma C1_counterexample :
  processor.as_tuple
    (processor.parse_folder_name float_dec
       (py "necklace-pinecone-whiteberry-hillseries_39.9"))
  = (py "necklace", py "pinecone", py "whiteberry-hillseries", Some 39.9%Q)
  /\ processor.as_tuple
       (processor.parse_folder_name float_dec
          (py "necklace-pinecone-whiteberry-hillseries_39.9"))
     <> (py "necklace", py "pinecone-whiteberry", py "hillseries",
         Some 39.9%Q).
Proof. split; [by_eval|by vm_compute]. Qed.

(** C2, as the code has it: when the part after the last underscore is
    rejected by [float], the price is [None] and the hyphen stage receives
    the part before that underscore only; the rejected suffix and its
    underscore are dropped.  Both parsers do so. *)
Theorem C2_unparsed_price_drops_suffix {F : Type} (float : pystr -> option F) :
  (forall l p : pystr,
     underscore ∉ p -> float (strip p) = None ->
     folder_utils.parse_folder_name float (l ++ underscore :: p)
     = folder_utils.hyphen_stage l None)
  /\ (forall name b p : pystr,
        strip name = b ++ underscore :: p -> underscore ∉ p ->
        float p = None ->
        processor.parse_folder_name float name
        = processor.hyphen_stage b None).
Proof.
  split.
  - intros l p Hp Hf. unfold folder_utils.parse_folder_name.
    rewrite price_stage_suffix by done. bind_ok. by rewrite Hf.
  - intros name b p Hn Hp Hf.
    by rewrite (processor_price_cut float name b p Hn Hp), Hf.
Qed.

Lemma C2_witness :
  folder_utils.parse_folder_name float_dec (py "a-b_c")
  = folder_utils.hyphen_stage (py "a-b") None.
Proof.
  apply (proj1 (C2_unparsed_price_drops_suffix float_dec) (py "a-b") (py "c"));
    by_eval.
Defined.

(** The name [a-b_c]: [float] rejects [c]; the claim hands the whole name
    to the hyphen stage, which would give materials [b_c]; the parser
    gives materials [b]. *)
Lemma C2_counterexample :
  contains underscore (py "a-b_c") = true
  /\ rsplit1 underscore (py "a-b_c") = [py "a-b"; py "c"]
  /\ float_dec (strip (py "c")) = None
  /\ folder_utils.hyphen_stage (F:=Q) (py "a-b_c") None
     = Ok (py "a", py "b_c", [], None)
  /\ folder_utils.parse_folder_name float_dec (py "a-b_c")
     = Ok (py "a", py "b", [], None)
  /\ folder_utils.parse_folder_name float_dec (py "a-b_c")
     <> folder_utils.hyphen_stage (py "a-b_c") None.
Proof. repeat split; try by_eval. by vm_compute. Qed.

(** C9, where the code departs from it: with no hyphen token left after the
    blank ones are dropped, the parser of [core/folder_utils.py] reaches its
    last branch and raises [IndexError] on [parts[0]]. *)
Theorem C9_no_token_raises {F : Type} (float : pystr -> option F) :
  folder_utils.parse_folder_name float (py "") = Raise IndexError
  /\ folder_utils.parse_folder_name float (py " - ") = Raise IndexError
  /\ folder_utils.parse_folder_name float (py "_25") = Raise IndexError.
Proof. repeat split; by vm_compute. Qed.

(** More generally: a name without underscore all of whose hyphen tokens
    are blank. *)
Lemma folder_utils_blank_raises {F : Type} (float : pystr -> option F)
    (name : pystr) :
  underscore ∉ name ->
  Forall (fun q => nonempty (strip q) = false) (split hyphen name) ->
  folder_utils.parse_folder_name float name = Raise IndexError.
Proof.
  intros Hu Hb. unfold folder_utils.parse_folder_name.
  rewrite price_stage_plain by done. bind_ok. by apply hyphen_stage_blank.
Qed.

(** The parser of [pipeline/processor.py] has no such branch: on the empty
    name it returns three empty strings and no price. *)
Example processor_empty_name {F : Type} (float : pystr -> option F) :
  processor.as_tuple (processor.parse_folder_name float (py ""))
  = ([], [], [], None).
Proof. reflexivity. Qed.

(** With at least one non-blank token the parser of [core/folder_utils.py]
    returns. *)
Lemma hyphen_stage_returns {F : Type} (l : pystr) (price : option F) :
  filter (fun q => nonempty (strip q) = true) (split hyphen l) <> [] ->
  exists r, folder_utils.hyphen_stage l price = Ok r.
Proof.
  intros Hne. unfold folder_utils.hyphen_stage.
  destruct (filter _ (split hyphen l)) as [|q1 [|q2 qs]]; [done|..].
  - by eexists.
  - destruct qs as [|q3 qs _] using rev_ind; [by eexists|].
    rewrite !fmap_cons, fmap_app. simpl fmap.
    rewrite !bool_decide_false.
    + change (strip q1 :: strip q2 :: (strip <$> qs) ++ [strip q3])
        with (strip q1 :: (strip q2 :: (strip <$> qs)) ++ [strip q3]).
      rewrite getitem_last_snoc. by eexists.
    + simpl. rewrite length_app. simpl. lia.
    + simpl. rewrite length_app. simpl. lia.
Qed.

Lemma folder_utils_returns {F : Type} (float : pystr -> option F) (name : pystr) :
  (exists q, q ∈ split hyphen name /\ nonempty (strip q) = true) ->
  underscore ∉ name ->
  exists r, folder_utils.parse_folder_name float name = Ok r.
Proof.
  intros (q & Hq & Hs) Hn. unfold folder_utils.parse_folder_name.
  rewrite price_stage_plain by done. bind_ok.
  apply hyphen_stage_returns. intros Hnil.
  assert (q ∈ filter (fun q => nonempty (strip q) = true) (split hyphen name))
    as Hin by (by apply list_elem_of_filter).
  rewrite Hnil in Hin. by apply elem_of_nil in Hin.
Qed.

(** C10, as the code has it: the two parsers return the same four values
    on a name with two or three hyphen tokens, none of them blank, followed
    or not by an underscore and a price part that does not start with white
    space. *)
Theorem C10_parsers_agree_on_two_or_three_tokens
    {F : Type} (float : pystr -> option F)
    (ts : list pystr) (suffix : option pystr) :
  (length ts = 2 \/ length ts = 3)%nat ->
  Forall solid ts ->
  match suffix with
  | None => Forall (fun t => underscore ∉ t) ts
  | Some p => (underscore ∉ p) /\ lstrip p = p
  end ->
  let name := join hyphen ts ++
              match suffix with None => [] | Some p => underscore :: p end in
  folder_utils.parse_folder_name float name
  = Ok (processor.as_tuple (processor.parse_folder_name float name)).
Proof.
  intros Hlen Hts Hsuf name. subst name.
  destruct ts as [|t1 [|t2 [|t3 [|t4 ts]]]]; simpl in Hlen; try lia.
  - (* two tokens *)
    apply Forall_cons in Hts as [H1 Hts]. apply Forall_cons in Hts as [H2 _].
    pose proof H1 as [Hh1 _]. pose proof H2 as [Hh2 _].
    change (join hyphen [t1; t2]) with (t1 ++ hyphen :: t2).
    destruct suffix as [p|].
    + destruct Hsuf as [Hp Hl].
      unfold folder_utils.parse_folder_name.
      rewrite price_stage_suffix by done. bind_ok.
      rewrite (hyphen_stage_two t1 t2 _ H1 H2 : folder_utils.hyphen_stage
                 (t1 ++ hyphen :: t2) _ = _).
      rewrite (processor_price_cut float _ (lstrip t1 ++ hyphen :: t2)
                 (rstrip p)).
      * rewrite processor_stage_two; [|by intros ?%elem_of_lstrip|done].
        unfold processor.as_tuple. simpl.
        rewrite strip_lstrip. replace (strip p) with (rstrip p); [done|].
        unfold strip. by rewrite Hl.
      * rewrite strip_around by apply isspace_underscore.
        by rewrite lstrip_around by apply isspace_hyphen.
      * by intros ?%elem_of_rstrip.
    + rewrite app_nil_r.
      apply Forall_cons in Hsuf as [Hu1 Hsuf].
      apply Forall_cons in Hsuf as [Hu2 _].
      assert (underscore ∉ t1 ++ hyphen :: t2) as Hu.
      { intros [?|[?|?]%elem_of_cons]%elem_of_app; done. }
      unfold folder_utils.parse_folder_name.
      rewrite price_stage_plain by done. bind_ok.
      rewrite (hyphen_stage_two t1 t2 _ H1 H2 : folder_utils.hyphen_stage
                 (t1 ++ hyphen :: t2) _ = _).
      rewrite processor_plain by done.
      rewrite strip_around by apply isspace_hyphen.
      rewrite processor_stage_two;
        [|by intros ?%elem_of_lstrip|by intros ?%elem_of_rstrip].
      unfold processor.as_tuple. simpl.
      by rewrite strip_lstrip, strip_rstrip.
  - (* three tokens *)
    apply Forall_cons in Hts as [H1 Hts]. apply Forall_cons in Hts as [H2 Hts].
    apply Forall_cons in Hts as [H3 _].
    pose proof H1 as [Hh1 _]. pose proof H2 as [Hh2 _].
    pose proof H3 as [Hh3 _].
    assert (Forall solid (t1 :: [t2] ++ [t3])) as Hall by (simpl; forall_list).
    pose proof (fun price : option F => hyphen_stage_three t1 [t2] t3 price
                               ltac:(done) Hall) as Hfu.
    simpl in Hfu.
    change (join hyphen [t1; t2; t3])
      with (t1 ++ hyphen :: t2 ++ hyphen :: t3).
    destruct suffix as [p|].
    + destruct Hsuf as [Hp Hl].
      unfold folder_utils.parse_folder_name.
      rewrite price_stage_suffix by done. bind_ok. rewrite Hfu.
      rewrite (processor_price_cut float _
                 (lstrip t1 ++ hyphen :: t2 ++ hyphen :: t3) (rstrip p)).
      * rewrite processor_stage_three; [|by intros ?%elem_of_lstrip|done].
        unfold processor.as_tuple. simpl.
        rewrite strip_lstrip. replace (strip p) with (rstrip p); [done|].
        unfold strip. by rewrite Hl.
      * rewrite strip_around by apply isspace_underscore.
        by rewrite lstrip_around by apply isspace_hyphen.
      * by intros ?%elem_of_rstrip.
    + rewrite app_nil_r.
      apply Forall_cons in Hsuf as [Hu1 Hsuf].
      apply Forall_cons in Hsuf as [Hu2 Hsuf].
      apply Forall_cons in Hsuf as [Hu3 _].
      assert (underscore ∉ t1 ++ hyphen :: t2 ++ hyphen :: t3) as Hu.
      { intros [?|[?|[?|[?|?]%elem_of_cons]%elem_of_app]%elem_of_cons]%elem_of_app;
          done. }
      unfold folder_utils.parse_folder_name.
      rewrite price_stage_plain by done. bind_ok. rewrite Hfu.
      rewrite processor_plain by done.
      rewrite strip_around by apply isspace_hyphen.
      rewrite (rstrip_around hyphen t2 t3) by apply isspace_hyphen.
      rewrite processor_stage_three; [|by intros ?%elem_of_lstrip|done].
      unfold processor.as_tuple. simpl.
      by rewrite strip_lstrip, strip_rstrip.
Qed.

Ltac solid_eval :=
  repeat match goal with
         | |- Forall _ _ => apply List.Forall_cons || apply List.Forall_nil
         | |- solid _ => split; by_eval
         | |- _ ∉ _ => by_eval
         end.

Lemma C10_witness :
  folder_utils.parse_folder_name float_dec
    (py "earring-driedflower-forestseries_25")
  = Ok (processor.as_tuple
          (processor.parse_folder_name float_dec
             (py "earring-driedflower-forestseries_25"))).
Proof.
  apply (C10_parsers_agree_on_two_or_three_tokens float_dec
           [py "earring"; py "driedflower"; py "forestseries"]
           (Some (py "25"))).
  - right. reflexivity.
  - solid_eval.
  - split; by_eval.
Defined.

(** The name of the specification's own scenario, with four hyphen tokens:
    [core/folder_utils.py] gives materials [pinecone-whiteberry] and series
    [hillseries], [pipeline/processor.py] gives materials [pinecone] and
    series [whiteberry-hillseries].  A name of one token, [ring], goes to
    the series in the first and to the product type in the second. *)
Lemma C10_counterexample :
  folder_utils.parse_folder_name float_dec
    (py "necklace-pinecone-whiteberry-hillseries_39.9")
  = Ok (py "necklace", py "pinecone-whiteberry", py "hillseries", Some 39.9%Q)
  /\ processor.as_tuple
       (processor.parse_folder_name float_dec
          (py "necklace-pinecone-whiteberry-hillseries_39.9"))
     = (py "necklace", py "pinecone", py "whiteberry-hillseries", Some 39.9%Q)
  /\ folder_utils.parse_folder_name float_dec
       (py "necklace-pinecone-whiteberry-hillseries_39.9")
     <> Ok (processor.as_tuple
              (processor.parse_folder_name float_dec
                 (py "necklace-pinecone-whiteberry-hillseries_39.9")))
  /\ folder_utils.parse_folder_name float_dec (py "ring")
     = Ok ([], [], py "ring", None)
  /\ processor.as_tuple (processor.parse_folder_name float_dec (py "ring"))
     = (py "ring", [], [], None).
Proof. repeat split; try by_eval. by vm_compute. Qed.

(** A price part that starts with the separator U+001C: [strip] removes
    it, [float] does not skip it, so the first parser reads 5 and the second
    no price. *)
Example parsers_price_differ :
  folder_utils.parse_folder_name float_dec (py "a-b_" ++ [0x1C] ++ py "5")
  = Ok (py "a", py "b", [], Some 5%Q)
  /\ processor.as_tuple
       (processor.parse_folder_name float_dec (py "a-b_" ++ [0x1C] ++ py "5"))
     = (py "a", py "b", [], None).
Proof. split; by vm_compute. Qed.

(** ** [clean_tags] *)

Section FirstOccurrences.
Implicit Types (l : list pystr) (x y : pystr).

Lemma first_occurrences_filter (P : pystr -> Prop)
    `{forall x, Decision (P x)} l :
  filter P (first_occurrences l) = first_occurrences (filter P l).
Proof.
  induction l as [|x l IH]; [done|]. simpl.
  destruct (decide (P x)) as [Hx|Hx].
  - rewrite !filter_cons_True by done. simpl. rewrite <- IH.
    f_equal. rewrite !list_filter_filter. apply list_filter_iff. tauto.
  - rewrite !filter_cons_False by done. rewrite <- IH.
    rewrite list_filter_filter. apply list_filter_iff.
    intros y. split; [tauto|]. intros Hy. split; [done|]. by intros ->.
Qed.

Lemma first_occurrences_subseteq l : first_occurrences l ⊆ l.
Proof.
  induction l as [|x l IH]; [done|]. simpl. intros y.
  rewrite !elem_of_cons, list_elem_of_filter. intros [->|[_ ?]]; auto.
Qed.

Lemma first_occurrences_NoDup l : NoDup (first_occurrences l).
Proof.
  induction l as [|x l IH]; simpl; [constructor|].
  apply NoDup_cons. split; [|by apply NoDup_filter].
  rewrite list_elem_of_filter. tauto.
Qed.

Lemma first_occurrences_id l : NoDup l -> first_occurrences l = l.
Proof.
  induction 1 as [|x l Hx _ IH]; [done|]. simpl. rewrite IH. f_equal.
  apply filter_all. apply Forall_forall. intros y Hy ->. done.
Qed.
End FirstOccurrences.

Section CleanTags.
Context (lower : pystr -> pystr).

Let norm (t : pystr) : pystr := lower (strip t).
Let kept (tags : list pystr) : list pystr :=
  filter (fun t => nonempty t = true) (norm <$> tags).

(** The loop, entered with room left in [cleaned]. *)
Lemma clean_tags_loop_spec (max_count : nat) (tags cleaned : list pystr)
    (seen : gset pystr) :
  (forall y, y ∈ seen <-> y ∈ cleaned) ->
  (length cleaned < max_count)%nat ->
  clean_tags_loop lower max_count tags cleaned seen
  = take max_count
      (cleaned ++ first_occurrences
                    (filter (fun y => y ∉ cleaned) (kept tags))).
Proof.
  revert cleaned seen.
  induction tags as [|tag tags IH]; intros cleaned seen Hseen Hlen.
  - simpl. rewrite app_nil_r. by rewrite take_ge by lia.
  - simpl. fold (norm tag). unfold kept. rewrite fmap_cons.
    destruct (nonempty (norm tag)) eqn:Hne; simpl.
    + rewrite filter_cons_True by done. fold (kept tags).
      destruct (decide (norm tag ∈ seen)) as [Hin|Hnin].
      * rewrite bool_decide_false by (intros ?; done).
        rewrite filter_cons_False by (rewrite <- Hseen; intros ?; done).
        by apply IH.
      * rewrite bool_decide_true by done.
        rewrite filter_cons_True by (by rewrite <- Hseen).
        simpl first_occurrences.
        rewrite first_occurrences_filter, list_filter_filter.
        assert (filter (fun x => x <> norm tag /\ x ∉ cleaned) (kept tags)
                = filter (fun y => y ∉ cleaned ++ [norm tag]) (kept tags))
          as ->.
        { apply list_filter_iff. intros y.
          rewrite elem_of_app, list_elem_of_singleton. tauto. }
        set (X := first_occurrences _).
        rewrite (cons_middle (norm tag) cleaned X), app_assoc. subst X.
        destruct (decide (max_count <= length (cleaned ++ [norm tag]))%nat)
          as [Hfull|Hroom].
        -- rewrite bool_decide_true by done.
           rewrite length_app in Hfull. simpl in Hfull.
           rewrite take_app_length'; [done|].
           rewrite length_app. simpl. lia.
        -- rewrite bool_decide_false by done.
           apply IH; [|lia].
           intros y. rewrite elem_of_union, elem_of_singleton, elem_of_app,
             list_elem_of_singleton, Hseen. tauto.
    + rewrite filter_cons_False by (by rewrite Hne). fold (kept tags).
      by apply IH.
Qed.

Lemma clean_tags_is_spec tags :
  clean_tags lower tags = clean_tags_spec lower tags.
Proof.
  unfold clean_tags, clean_tags_max, clean_tags_spec.
  destruct tags as [|tag tags]; [done|].
  rewrite clean_tags_loop_spec; [|set_solver|simpl; lia].
  simpl app. f_equal. f_equal. fold norm.
  apply filter_all, Forall_forall. intros y _. apply not_elem_of_nil.
Qed.

Lemma clean_tags_origin y tags :
  y ∈ clean_tags lower tags -> y <> [] /\ exists t, t ∈ tags /\ y = norm t.
Proof.
  rewrite clean_tags_is_spec. unfold clean_tags_spec.
  intros Hy%subseteq_take%first_occurrences_subseteq.
  apply list_elem_of_filter in Hy as [Hne Hy].
  apply list_elem_of_fmap in Hy as (t & -> & Ht).
  split; [by intros Heq; rewrite Heq in Hne|]. by exists t.
Qed.

Lemma clean_tags_NoDup tags : NoDup (clean_tags lower tags).
Proof.
  rewrite clean_tags_is_spec. unfold clean_tags_spec.
  eapply sublist_NoDup; [apply first_occurrences_NoDup|].
  apply sublist_take.
Qed.

Lemma clean_tags_length tags : (length (clean_tags lower tags) <= 13)%nat.
Proof.
  rewrite clean_tags_is_spec. unfold clean_tags_spec.
  rewrite length_take. lia.
Qed.

Lemma fmap_fixed {A} (f : A -> A) (l : list A) :
  (forall y, y ∈ l -> f y = y) -> f <$> l = l.
Proof.
  induction l as [|x l IH]; intros Hf; [done|].
  rewrite fmap_cons, Hf, IH; [done| |left]. intros y ?. apply Hf. by right.
Qed.

Section Lowering.
Hypothesis lower_idem : forall s, lower (lower s) = lower s.
Hypothesis lower_keeps_ends :
  forall s, strip s = s -> strip (lower s) = lower s.

Lemma norm_strip t : strip (norm t) = norm t.
Proof. apply lower_keeps_ends, strip_idem. Qed.

Lemma norm_lower t : lower (norm t) = norm t.
Proof. apply lower_idem. Qed.

Lemma clean_tags_elem y tags :
  y ∈ clean_tags lower tags -> y <> [] /\ strip y = y /\ lower y = y.
Proof.
  intros (Hne & t & _ & ->)%clean_tags_origin.
  split; [done|]. split; [apply norm_strip|apply norm_lower].
Qed.

Lemma clean_tags_idem tags :
  clean_tags lower (clean_tags lower tags) = clean_tags lower tags.
Proof.
  rewrite (clean_tags_is_spec (clean_tags lower tags)).
  unfold clean_tags_spec at 1.
  rewrite fmap_fixed.
  - rewrite filter_all.
    + rewrite first_occurrences_id by apply clean_tags_NoDup.
      apply take_ge, clean_tags_length.
    + apply Forall_forall. intros y [Hy _]%clean_tags_elem. by destruct y.
  - intros y (_ & Hs & Hl)%clean_tags_elem. by rewrite Hs, Hl.
Qed.
End Lowering.
End CleanTags.

(** C4: [clean_tags] applied twice gives what it gives once; its result
    has at most 13 entries, each non-empty, trimmed and lowercase, no entry
    twice, in the order of first occurrence in the input (it is the
    specification's rule [clean_tags_spec]).  [str.lower] enters through
    two of its properties: lowering twice is lowering once, and lowering
    puts no white space at the ends of a trimmed string. *)
Theorem C4_clean_tags_idempotent_bounded
    (lower : pystr -> pystr)
    (lower_idem : forall s, lower (lower s) = lower s)
    (lower_keeps_ends : forall s, strip s = s -> strip (lower s) = lower s)
    (tags : list pystr) :
  clean_tags lower (clean_tags lower tags) = clean_tags lower tags
  /\ (length (clean_tags lower tags) <= 13)%nat
  /\ (forall y, y ∈ clean_tags lower tags ->
                y <> [] /\ strip y = y /\ lower y = y)
  /\ NoDup (clean_tags lower tags)
  /\ clean_tags lower tags = clean_tags_spec lower tags.
Proof.
  split; [exact (clean_tags_idem lower lower_idem lower_keeps_ends tags)|].
  split; [apply clean_tags_length|].
  split; [exact (fun y => clean_tags_elem lower lower_idem lower_keeps_ends
                            y tags)|].
  split; [apply clean_tags_NoDup|apply clean_tags_is_spec].
Qed.

(** The ASCII instance has the two properties. *)
Section AsciiLower.
Let low (c : N) : N := if (0x41 <=? c) && (c <=? 0x5A) then c + 0x20 else c.

Lemma isspace_range c : isspace c = true -> c <= 0x20 \/ 0x85 <= c.
Proof.
  unfold isspace. intros H.
  repeat match type of H with
         | (_ || _)%bool = true => apply orb_prop in H as [H|H]
         end;
    repeat match type of H with
           | (_ && _)%bool = true => apply andb_prop in H as [? H]
           end;
    repeat match goal with
           | H : (_ <=? _) = true |- _ => apply N.leb_le in H
           | H : (_ =? _) = true |- _ => apply N.eqb_eq in H
           end; lia.
Qed.

Lemma isspace_low c : isspace (low c) = isspace c.
Proof.
  unfold low.
  destruct (N.leb_spec 0x41 c); destruct (N.leb_spec c 0x5A); simpl; try done.
  destruct (isspace (c + 32)) eqn:E1; destruct (isspace c) eqn:E2; try done.
  - apply isspace_range in E1. lia.
  - apply isspace_range in E2. lia.
Qed.

Lemma low_low c : low (low c) = low c.
Proof.
  unfold low.
  destruct (N.leb_spec 0x41 c); destruct (N.leb_spec c 0x5A); simpl;
    repeat match goal with
           | |- context [?a <=? ?b] => destruct (N.leb_spec a b)
           end; simpl; lia.
Qed.

Lemma lstrip_fmap (f : N -> N) s :
  (forall c, isspace (f c) = isspace c) -> lstrip (f <$> s) = f <$> lstrip s.
Proof.
  intros Hf. induction s as [|c s IH]; [done|].
  rewrite fmap_cons. cbn [lstrip]. rewrite Hf, IH.
  by destruct (isspace c).
Qed.

Lemma rstrip_fmap (f : N -> N) s :
  (forall c, isspace (f c) = isspace c) -> rstrip (f <$> s) = f <$> rstrip s.
Proof.
  intros Hf. induction s as [|c s IH]; [done|].
  rewrite fmap_cons. cbn [rstrip]. rewrite IH, Hf.
  destruct (rstrip s); simpl; [|done].
  by destruct (isspace c).
Qed.

Lemma ascii_lower_idem s : ascii_lower (ascii_lower s) = ascii_lower s.
Proof.
  unfold ascii_lower. rewrite <- list_fmap_compose.
  apply list_fmap_ext. intros _ c _. apply low_low.
Qed.

Lemma ascii_lower_keeps_ends s :
  strip s = s -> strip (ascii_lower s) = ascii_lower s.
Proof.
  intros Hs. unfold strip, ascii_lower.
  rewrite lstrip_fmap, rstrip_fmap by apply isspace_low.
  fold (strip s). by rewrite Hs.
Qed.
End AsciiLower.

Lemma C4_witness :
  let tags := [py " Boho "; py "boho"; py ""; py "Wood"; py "WOOD "] in
  clean_tags ascii_lower (clean_tags ascii_lower tags)
  = clean_tags ascii_lower tags
  /\ (length (clean_tags ascii_lower tags) <= 13)%nat
  /\ (forall y, y ∈ clean_tags ascii_lower tags ->
                y <> [] /\ strip y = y /\ ascii_lower y = y)
  /\ NoDup (clean_tags ascii_lower tags)
  /\ clean_tags ascii_lower tags = clean_tags_spec ascii_lower tags.
Proof.
  exact (C4_clean_tags_idempotent_bounded ascii_lower
           ascii_lower_idem ascii_lower_keeps_ends
           [py " Boho "; py "boho"; py ""; py "Wood"; py "WOOD "]).
Defined.

Example clean_tags_run :
  clean_tags ascii_lower [py " Boho "; py "boho"; py ""; py "Wood"; py "WOOD "]
  = [py "boho"; py "wood"].
Proof. by vm_compute. Qed.

(** Fifteen tags give the first thirteen, in order. *)
Example clean_tags_fifteen :
  clean_tags ascii_lower
    ((fun c => [c]) <$> py "ABCDEFGHIJKLMNO")
  = (fun c => [c]) <$> py "abcdefghijklm".
Proof. by vm_compute. Qed.

(** ** [clean_materials] *)

Global Instance str_le_reflexive : Reflexive str_le.
Proof. by left. Qed.

Global Instance str_le_transitive : Transitive str_le.
Proof.
  intros s t u [->|Hst] [->|Htu]; [by left|by right|by right|].
  right. unfold str_lt in *. by etrans.
Qed.

Global Instance str_le_total : Total str_le.
Proof.
  intros s t. unfold str_le, str_lt.
  destruct (trichotomy (@lexico pystr _) s t) as [?|[->|?]]; auto.
Qed.

Lemma sorted_ascending (l : list pystr) : StronglySorted str_le (sorted l).
Proof. apply StronglySorted_merge_sort; apply _. Qed.

Lemma sorted_NoDup (l : list pystr) : NoDup l -> NoDup (sorted l).
Proof. intros Hl. unfold sorted. by rewrite merge_sort_Permutation. Qed.

Lemma ascending_strict (l : list pystr) :
  StronglySorted str_le l -> NoDup l -> StronglySorted str_lt l.
Proof.
  induction 1 as [|x l Hl IH Hx]; intros Hnd; [constructor|].
  apply NoDup_cons in Hnd as [Hnin Hnd].
  constructor; [by apply IH|].
  apply Forall_forall. intros y Hy.
  destruct (proj1 (Forall_forall _ _) Hx y Hy) as [->|]; [done|done].
Qed.

(** C3, as the code has it: the list returned by [clean_materials] is in
    strictly ascending order of [str] comparison; so it is sorted
    ascending and no entry occurs twice.  Entries are compared as they
    are: the code folds no letter case. *)
Theorem C3_clean_materials_strictly_ascending
    (materials : list pystr) (folder_ctx : FolderContext) :
  StronglySorted str_lt (clean_materials materials folder_ctx)
  /\ StronglySorted str_le (clean_materials materials folder_ctx)
  /\ NoDup (clean_materials materials folder_ctx).
Proof.
  unfold clean_materials.
  match goal with |- context [sorted (elements ?X)] => set (all := X) end.
  assert (NoDup (sorted (elements all))) as Hnd
    by apply sorted_NoDup, NoDup_elements.
  split; [|split; [apply sorted_ascending|done]].
  by apply ascending_strict; [apply sorted_ascending|].
Qed.

(** Two materials that differ in letter case only are both kept. *)
Lemma C3_counterexample :
  let out := clean_materials [py "Resin"; py "resin"]
               (bare_context (py "f1") (py "ring")) in
  out = [py "Resin"; py "resin"]
  /\ out !! 0%nat = Some (py "Resin")
  /\ out !! 1%nat = Some (py "resin")
  /\ ascii_lower (py "Resin") = ascii_lower (py "resin")
  /\ ascii_lower (translate_material (py "Resin"))
     = ascii_lower (translate_material (py "resin")).
Proof. repeat split; by vm_compute. Qed.

Lemma foldl_add_elem {A} (g : A -> pystr) (cond : A -> bool) (l : list A)
    (acc : gset pystr) (x : pystr) :
  x ∈ foldl (fun acc m => if cond m then {[g m]} ∪ acc else acc) acc l
  <-> x ∈ acc \/ exists m, m ∈ l /\ cond m = true /\ x = g m.
Proof.
  revert acc. induction l as [|m l IH]; intros acc; simpl.
  - split; [by left|]. intros [?|(m & Hm & _)]; [done|].
    by apply elem_of_nil in Hm.
  - rewrite IH. destruct (cond m) eqn:Hc.
    + rewrite elem_of_union, elem_of_singleton. split.
      * intros [[->|?]|(m' & ? & ? & ->)]; [right|by left|right].
        -- exists m. split; [left|done].
        -- exists m'. split; [by right|done].
      * intros [?|(m' & [->|?]%elem_of_cons & ? & ->)].
        -- left. by right.
        -- left. by left.
        -- right. by exists m'.
    + split.
      * intros [?|(m' & ? & ? & ->)]; [by left|right].
        exists m'. split; [by right|done].
      * intros [?|(m' & [->|?]%elem_of_cons & ? & ->)]; [by left|congruence|].
        right. by exists m'.
Qed.

(** The entries of the result are the translated materials of the answer
    and of the folder name, and nothing else. *)
Lemma clean_materials_elem (materials : list pystr)
    (folder_ctx : FolderContext) (x : pystr) :
  x ∈ clean_materials materials folder_ctx
  <-> (exists m, m ∈ materials /\ nonempty m = true
                 /\ x = translate_material (strip m))
      \/ (nonempty (raw_materials_str folder_ctx) = true
          /\ exists t,
               t ∈ re_split_runs materials_class false
                     (raw_materials_str folder_ctx)
               /\ nonempty (strip t) = true
               /\ x = translate_material (strip t)).
Proof.
  unfold clean_materials, sorted. cbv zeta.
  rewrite merge_sort_Permutation, elem_of_elements.
  destruct (nonempty (raw_materials_str folder_ctx)) eqn:Hraw.
  - rewrite (foldl_add_elem (fun t => translate_material (strip t))
               (fun t => nonempty (strip t))).
    rewrite (foldl_add_elem (fun m => translate_material (strip m)) nonempty).
    rewrite elem_of_empty. split.
    + intros [[[]|?]|?]; [by left|right; by split].
    + intros [?|[_ ?]]; [left; by right|by right].
  - rewrite (foldl_add_elem (fun m => translate_material (strip m)) nonempty).
    rewrite elem_of_empty. split.
    + intros [[]|?]. by left.
    + intros [?|[? _]]; [by right|done].
Qed.

Example clean_materials_run :
  clean_materials [[0x677E; 0x679C]; py " resin "; py "Resin"]
    {| folder_id := py "f1"; folder_name := py "n"; created_time := [];
       product_type := py "necklace";
       raw_materials_str := py "pinecone-whiteberry, " ++ [0x91D1];
       series := []; price_from_name := None;
       image_files := []; note_file := None; other_files := [];
       note_text := [] |}
  = [py "Resin"; py "gold"; py "pine cone"; py "pinecone"; py "resin";
     py "whiteberry"].
Proof. by vm_compute. Qed.

(** ** Floats against zero *)

(** A float is below zero, equal to zero, above zero or NaN, and the
    comparisons with zero say which. *)
Lemma float_against_zero (x : PrimFloat.float) :
  (PrimFloat.ltb x 0 = true /\ PrimFloat.leb x 0 = true
   /\ PrimFloat.eqb x 0 = false /\ PrimFloat.ltb 0 x = false
   /\ PrimFloat.leb 0 x = false)
  \/ (PrimFloat.eqb x 0 = true /\ PrimFloat.leb x 0 = true
      /\ PrimFloat.leb 0 x = true /\ PrimFloat.ltb x 0 = false
      /\ PrimFloat.ltb 0 x = false /\ PrimFloat.eqb 0 x = true)
  \/ (PrimFloat.ltb 0 x = true /\ PrimFloat.leb 0 x = true
      /\ PrimFloat.eqb x 0 = false /\ PrimFloat.ltb x 0 = false
      /\ PrimFloat.leb x 0 = false)
  \/ (x = PrimFloat.nan /\ PrimFloat.ltb x 0 = false
      /\ PrimFloat.leb x 0 = false /\ PrimFloat.eqb x 0 = false
      /\ PrimFloat.ltb 0 x = false /\ PrimFloat.leb 0 x = false).
Proof.
  rewrite !FloatAxioms.ltb_spec, !FloatAxioms.leb_spec, !FloatAxioms.eqb_spec.
  change (Prim2SF 0) with (S754_zero false).
  pose proof (FloatAxioms.SF2Prim_Prim2SF x) as Hx.
  destruct (Prim2SF x) as [s|s| |s m e].
  - right. left. by destruct s.
  - destruct s; [left|right; right; left]; done.
  - right. right. right. split; [by rewrite <- Hx|done].
  - destruct s; [left|right; right; left]; done.
Qed.

(** Split on the four cases and close each by what it says. *)
Ltac float_cases x :=
  destruct (float_against_zero x) as [?H|[?H|[?H|?H]]];
  repeat match goal with H : _ /\ _ |- _ => destruct H end;
  subst; try done; try congruence.

Lemma float_nan_not_zero : PrimFloat.nan <> 0%float.
Proof.
  intros H. apply (f_equal (fun x => PrimFloat.eqb x x)) in H.
  by vm_compute in H.
Qed.


(** ** [normalize_product] *)

Section Drafts.
Context (lower upper : pystr -> pystr).
Context (float_of_int : Z -> option PrimFloat.float).
Implicit Types (ai_json : AiJson) (folder_ctx : FolderContext)
  (draft : ProductDraft).

(** The price handed to [float] and the title, read off a draft that was
    returned; and when a draft is returned. *)
Lemma normalize_product_price ai_json folder_ctx draft :
  normalize_product lower upper float_of_int ai_json folder_ctx = Ok draft ->
  float_of float_of_int
    (match ai_price ai_json with
     | None => NFloat (or_num (price_from_name folder_ctx) 0)
     | Some price =>
         if le_zero price
         then NFloat (or_num (price_from_name folder_ctx) 0)
         else price
     end)
  = Ok (pd_price draft).
Proof.
  unfold normalize_product. destruct (float_of _ _) as [price|e]; [|done].
  by intros [= <-].
Qed.




End Drafts.




(** A whole run: answer price 0, folder [earring-driedflower-forestseries_25]. *)
Example normalize_product_run :
  exists draft,
    normalize_product ascii_lower ascii_upper int_to_float
      {| ai_id_from_drive := None; ai_title := Some (py "  forest   ring ");
         ai_description := None; ai_short_description := None;
         ai_price := Some (NInt 0); ai_currency := None; ai_quantity := None;
         ai_tags := Some [py "Boho"; py " boho"; py "Ring"];
         ai_materials := Some [py "resin"];
         ai_colors := Some [py " Green "; py " "];
         ai_style := None; ai_product_type := None; ai_category := None;
         ai_series := None; ai_who_made := None; ai_when_made := None |}
      (context_of_name float_bin (py "f1")
         (py "earring-driedflower-forestseries_25"))
    = Ok draft
    /\ pd_title draft = py "Forest ring"
    /\ pd_short_description draft = py "Forest ring"
    /\ pd_price draft = 25%float
    /\ pd_tags draft = [py "boho"; py "ring"]
    /\ pd_materials draft = [py "driedflower"; py "resin"]
    /\ pd_colors draft = [py "green"]
    /\ pd_product_type draft = py "earring"
    /\ pd_series draft = py "forestseries"
    /\ pd_category draft = py "earring"
    /\ pd_currency draft = py "USD"
    /\ pd_id draft = py "f1".
Proof. eexists. split; [by vm_compute|]. repeat split; by vm_compute. Qed.

(** An answer price that [float] cannot convert: no draft. *)
Example normalize_product_overflow :
  normalize_product ascii_lower ascii_upper int_to_float
    (answer_with (Some (NInt (10 ^ 400))) None)
    (bare_context (py "f1") (py "ring"))
  = Raise OverflowError.
Proof. by vm_compute. Qed.

(** ** The state store *)

Section StoreFacts.
Implicit Types (self : StateStore) (f : gmap pystr json).

Lemma records_processed self f :
  records self = Some f -> get_processed_folder_ids self = Ok (dom f).
Proof.
  unfold records, get_processed_folder_ids. destruct self as [st]. simpl.
  destruct st as [| | | | |m]; try done.
  destruct (m !! folders_key) as [[| | | | |f']|] eqn:E; try done.
  - intros [= ->]. simpl. by rewrite E.
  - intros [= <-]. simpl. rewrite E. simpl. by rewrite dom_empty_L.
Qed.

Lemma records_get self f folder_id :
  records self = Some f ->
  get_folder_record self folder_id = Ok (default (JObj ∅) (f !! folder_id)).
Proof.
  unfold records, get_folder_record. destruct self as [st]. simpl.
  destruct st as [| | | | |m]; try done.
  destruct (m !! folders_key) as [[| | | | |f']|] eqn:E; try done.
  - intros [= ->]. simpl. by rewrite E.
  - intros [= <-]. simpl. by rewrite E.
Qed.

Lemma records_mark self f folder_id name status platforms :
  records self = Some f ->
  exists self',
    mark_folder_status self folder_id name status platforms
    = Ok (self', _state self')
    /\ records self'
       = Some (<[folder_id := folder_record name status platforms]> f).
Proof.
  unfold records, mark_folder_status. destruct self as [st]. simpl.
  destruct st as [| | | | |m]; try done.
  destruct (m !! folders_key) as [[| | | | |f']|] eqn:E; try done.
  - intros [= ->]. simpl. rewrite E. simpl. rewrite E. simpl.
    eexists (Build_StateStore _). split; [reflexivity|].
    simpl. by rewrite lookup_insert_eq.
  - intros [= <-]. simpl. rewrite E. simpl.
    rewrite lookup_insert_eq. simpl.
    eexists (Build_StateStore _). split; [reflexivity|].
    simpl. by rewrite lookup_insert_eq.
Qed.

(** What the constructor leaves for a file it cannot use. *)
Lemma load_absent : _load None = empty_state.
Proof. done. Qed.

Lemma load_raises e : _load (Some (Raise e)) = empty_state.
Proof. done. Qed.

Lemma records_empty_state : records {| _state := empty_state |} = Some ∅.
Proof. by vm_compute. Qed.
End StoreFacts.

(** C8: a state document that exists but cannot be read or parsed gives a
    store with an empty [folders] mapping: the constructor returns, no
    folder id is processed and the record of every id is empty. *)
Theorem C8_unreadable_document_reinitializes (e : exn) :
  let store := StateStore_init (Some (Raise e)) in
  _state store = empty_state
  /\ get_processed_folder_ids store = Ok ∅
  /\ forall folder_id, get_folder_record store folder_id = Ok (JObj ∅).
Proof.
  intros store. subst store.
  change (StateStore_init (Some (Raise e))) with {| _state := empty_state |}.
  split; [done|].
  split; [by rewrite (records_processed _ ∅ records_empty_state), dom_empty_L|].
  intros folder_id.
  by rewrite (records_get _ ∅ folder_id records_empty_state), lookup_empty.
Qed.

(** C7: [mark_folder_status] on a store of the documented shape returns,
    and afterwards the record under [folder_id] is exactly the name, the
    status and the platforms given (the empty mapping when none is given),
    whatever was stored there before; the record of every other id is what
    it was; the document saved is the new state. *)
Theorem C7_mark_overwrites_one_record
    (self : StateStore) (f : gmap pystr json)
    (folder_id name status : pystr) (platforms : option (gmap pystr json)) :
  records self = Some f ->
  exists self',
    mark_folder_status self folder_id name status platforms
    = Ok (self', _state self')
    /\ records self'
       = Some (<[folder_id := folder_record name status platforms]> f)
    /\ get_folder_record self' folder_id
       = Ok (JObj (<[py "name" := JStr name]>
                   (<[py "status" := JStr status]>
                    (<[py "platforms" := JObj (default ∅ platforms)]> ∅))))
    /\ (forall other, other <> folder_id ->
          get_folder_record self' other = get_folder_record self other)
    /\ (forall other f', other <> folder_id -> records self' = Some f' ->
          f' !! other = f !! other).
Proof.
  intros Hf.
  destruct (records_mark self f folder_id name status platforms Hf)
    as (self' & Hmark & Hrec).
  exists self'. split; [done|]. split; [done|]. split; [|split].
  - by rewrite (records_get _ _ folder_id Hrec), lookup_insert_eq.
  - intros other Hne.
    rewrite (records_get _ _ other Hrec), (records_get _ _ other Hf).
    by rewrite lookup_insert_ne.
  - intros other f' Hne. rewrite Hrec. intros [= <-].
    by rewrite lookup_insert_ne.
Qed.

Lemma C7_witness :
  exists self',
    mark_folder_status {| _state := sample_document |}
      (py "f1") (py "ring-resin_12") (py "pending") None
    = Ok (self', _state self')
    /\ get_folder_record self' (py "f1")
       = Ok (JObj (<[py "name" := JStr (py "ring-resin_12")]>
                   (<[py "status" := JStr (py "pending")]>
                    (<[py "platforms" := JObj ∅]> ∅)))).
Proof.
  destruct (C7_mark_overwrites_one_record {| _state := sample_document |}
              sample_records (py "f1") (py "ring-resin_12") (py "pending")
              None eq_refl)
    as (self' & Hmark & _ & Hget & _).
  exists self'. split; [exact Hmark|exact Hget].
Defined.

(** ** The loader *)

(** Which files give a store of the documented shape. *)
Lemma records_init_unusable (file : backing) :
  file = None \/ (exists e, file = Some (Raise e)) ->
  records (StateStore_init file) = Some ∅.
Proof. intros [->|[e ->]]; apply records_empty_state. Qed.

Lemma records_init_document (m : gmap pystr json) :
  records (StateStore_init (Some (Ok (JObj m))))
  = match m !! folders_key with
    | None => Some ∅
    | Some (JObj f) => Some f
    | Some _ => None
    end.
Proof.
  unfold records, StateStore_init, _load. simpl.
  destruct (m !! folders_key) as [j|] eqn:E; simpl.
  - by rewrite E.
  - by rewrite lookup_insert_eq.
Qed.

(** C6: the loader returns exactly the listed folders whose id has no
    record in the store; a folder whose id has a record, whatever the
    record says (a failed status included), is left out. *)
Theorem C6_loader_skips_recorded_folders
    (file : backing) (all_folders : list loader.folder_meta)
    (f : gmap pystr json) :
  records (StateStore_init file) = Some f ->
  exists new_folders,
    loader.find_new_product_folders file all_folders = Ok new_folders
    /\ get_processed_folder_ids (StateStore_init file) = Ok (dom f)
    /\ new_folders
       = filter (fun x => f !! loader.id x = None) all_folders
    /\ (forall x, x ∈ new_folders <->
                  x ∈ all_folders /\ f !! loader.id x = None)
    /\ (forall x record,
          x ∈ all_folders -> f !! loader.id x = Some record ->
          x ∉ new_folders).
Proof.
  intros Hf. unfold loader.find_new_product_folders.
  rewrite (records_processed _ f Hf). bind_ok.
  assert (filter (fun x => loader.id x ∉ dom f) all_folders
          = filter (fun x => f !! loader.id x = None) all_folders) as ->.
  { apply list_filter_iff. intros x. apply not_elem_of_dom. }
  eexists. split; [done|]. split; [done|]. split; [done|]. split.
  - intros x. rewrite list_elem_of_filter. tauto.
  - intros x record _ Hrec [Hnone _]%list_elem_of_filter. congruence.
Qed.

Lemma C6_witness :
  exists new_folders,
    loader.find_new_product_folders (Some (Ok sample_document))
      [ {| loader.id := py "f1"; loader.name := py "ring-resin_12";
           loader.createdTime := py "2024-01-01" |};
        {| loader.id := py "f2"; loader.name := py "earring-rose_9";
           loader.createdTime := py "2024-01-02" |} ]
    = Ok new_folders
    /\ new_folders
       = [ {| loader.id := py "f2"; loader.name := py "earring-rose_9";
              loader.createdTime := py "2024-01-02" |} ].
Proof.
  destruct (C6_loader_skips_recorded_folders (Some (Ok sample_document))
              [ {| loader.id := py "f1"; loader.name := py "ring-resin_12";
                   loader.createdTime := py "2024-01-01" |};
                {| loader.id := py "f2"; loader.name := py "earring-rose_9";
                   loader.createdTime := py "2024-01-02" |} ]
              sample_records eq_refl)
    as (new_folders & Hnew & _ & Heq & _).
  exists new_folders. split; [exact Hnew|].
  rewrite Heq. reflexivity.
Defined.

(** The folder marked failed is not offered again. *)
Example loader_run :
  loader.find_new_product_folders (Some (Ok sample_document))
    [ {| loader.id := py "f1"; loader.name := py "ring-resin_12";
         loader.createdTime := py "2024-01-01" |};
      {| loader.id := py "f2"; loader.name := py "earring-rose_9";
         loader.createdTime := py "2024-01-02" |} ]
  = Ok [ {| loader.id := py "f2"; loader.name := py "earring-rose_9";
            loader.createdTime := py "2024-01-02" |} ].
Proof. by vm_compute. Qed.

(** ** [list_unfinished_folders] *)

Section Unfinished.
Implicit Types (self : StateStore) (f result : gmap pystr json).

Lemma is_object_get (rec : json) (k : pystr) (d : json) :
  is_object rec ->
  dict_get rec k d
  = Ok (match rec with JObj m => default d (m !! k) | _ => d end).
Proof. by destruct rec. Qed.

Lemma not_object_get (rec : json) (k : pystr) (d : json) :
  ~ is_object rec -> dict_get rec k d = Raise AttributeError.
Proof. destruct rec; simpl; done. Qed.

(** The loop over the records, all of them objects. *)
Lemma unfinished_loop (status_filter : list pystr) f :
  map_Forall (fun _ rec => is_object rec) f ->
  map_fold (fun fid rec (result : pyresult (gmap pystr json)) =>
              result ← result;
              status ← dict_get rec (py "status") JNull;
              if status_in status status_filter
              then Ok (<[fid := rec]> result)
              else Ok result)
           (Ok ∅) f
  = Ok (unfinished status_filter f).
Proof.
  apply (map_fold_weak_ind
           (fun r m => map_Forall (fun _ rec => is_object rec) m ->
                       r = Ok (unfinished status_filter m))).
  - intros _. unfold unfinished. by rewrite map_filter_empty.
  - intros i x m r Hi IH Hall.
    apply map_Forall_insert in Hall as [Hx Hm]; [|done].
    rewrite (IH Hm). bind_ok. rewrite (is_object_get _ _ _ Hx). bind_ok.
    fold (record_status x). unfold unfinished.
    destruct (status_in (record_status x) status_filter) eqn:E.
    + by rewrite map_filter_insert_True.
    + rewrite map_filter_insert_False by (simpl; congruence).
      rewrite delete_id; [done|]. done.
Qed.

(** One record that is no object makes the loop raise. *)
Lemma unfinished_loop_raises (status_filter : list pystr) f :
  (exists i rec, f !! i = Some rec /\ ~ is_object rec) ->
  map_fold (fun fid rec (result : pyresult (gmap pystr json)) =>
              result ← result;
              status ← dict_get rec (py "status") JNull;
              if status_in status status_filter
              then Ok (<[fid := rec]> result)
              else Ok result)
           (Ok ∅) f
  = Raise AttributeError.
Proof.
  intros Hbad.
  apply (map_fold_weak_ind
           (fun (r : pyresult (gmap pystr json)) m =>
              (forall e, r = Raise e -> e = AttributeError)
              /\ ((exists i rec, m !! i = Some rec /\ ~ is_object rec) ->
                  r = Raise AttributeError))); [..|done].
  - split; [done|]. intros (i & rec & Hi & _). by rewrite lookup_empty in Hi.
  - intros i x m r Hi [Hexn IH]. split.
    + intros e. destruct r as [acc|e']; [|intros [= <-]; by apply Hexn].
      bind_ok. destruct (dict_get x (py "status") JNull) as [st|e'] eqn:E.
      * bind_ok. by destruct (status_in st status_filter).
      * destruct x; simpl in E; try done; by intros [= <-]; injection E.
    + intros (j & rec & Hj & Hrec).
      destruct r as [acc|e'].
      * bind_ok. destruct (decide (j = i)) as [->|Hne].
        -- rewrite lookup_insert_eq in Hj. injection Hj as ->.
           by rewrite (not_object_get _ _ _ Hrec).
        -- rewrite lookup_insert_ne in Hj by done.
           assert (Ok acc = Raise AttributeError) by (apply IH; eauto). done.
      * rewrite (Hexn e' eq_refl). done.
Qed.
End Unfinished.

Lemma records_shape (self : StateStore) (f : gmap pystr json) :
  records self = Some f ->
  exists m, _state self = JObj m
            /\ (m !! folders_key = Some (JObj f)
                \/ (m !! folders_key = None /\ f = ∅)).
Proof.
  unfold records. destruct (_state self) as [| | | | |m]; try done.
  destruct (m !! folders_key) as [[| | | | |f']|] eqn:E; try done.
  - intros [= ->]. exists m. auto.
  - intros [= <-]. exists m. auto.
Qed.

Lemma records_folders (self : StateStore) (f : gmap pystr json) :
  records self = Some f ->
  dict_get (_state self) folders_key (JObj ∅) = Ok (JObj f).
Proof.
  intros (m & -> & [E|[E ->]])%records_shape; simpl; by rewrite E.
Qed.

Lemma list_unfinished_selects_by_status_aux
    (self : StateStore) (f : gmap pystr json)
    (status_filter : option (list pystr)) :
  records self = Some f ->
  map_Forall (fun _ rec => is_object rec) f ->
  list_unfinished_folders self status_filter
  = Ok (unfinished (or_default_filter status_filter) f).
Proof.
  intros Hf Hall. unfold list_unfinished_folders.
  rewrite (records_folders _ _ Hf). bind_ok. simpl py_len. bind_ok.
  simpl dict_items. bind_ok. by apply unfinished_loop.
Qed.

(** [list_unfinished_folders] on a store of the documented shape whose
    records are all objects returns exactly the records whose status is a
    member of the filter, each as it is stored; no filter and the empty
    filter both stand for pending and failed. *)
Theorem list_unfinished_selects_by_status
    (self : StateStore) (f : gmap pystr json)
    (status_filter : option (list pystr)) :
  records self = Some f ->
  map_Forall (fun _ rec => is_object rec) f ->
  exists result,
    list_unfinished_folders self status_filter = Ok result
    /\ (forall i rec,
          result !! i = Some rec
          <-> f !! i = Some rec
              /\ status_in (record_status rec)
                   (or_default_filter status_filter) = true)
    /\ list_unfinished_folders self (Some [])
       = list_unfinished_folders self None.
Proof.
  intros Hf Hall. exists (unfinished (or_default_filter status_filter) f).
  split; [|split; [|done]].
  - by apply list_unfinished_selects_by_status_aux.
  - intros i rec. unfold unfinished. rewrite map_lookup_filter_Some. done.
Qed.

Lemma list_unfinished_selects_by_status_witness :
  exists result,
    list_unfinished_folders {| _state := sample_document |}
      (Some [py "failed"]) = Ok result
    /\ result = sample_records.
Proof.
  destruct (list_unfinished_selects_by_status
              {| _state := sample_document |} sample_records
              (Some [py "failed"]) eq_refl)
    as (result & Hres & _ & _).
  - apply map_Forall_singleton. exact I.
  - exists result. split; [exact Hres|].
    assert (Ok result = Ok sample_records) as Heq
      by (rewrite <- Hres; vm_compute; reflexivity).
    by injection Heq.
Defined.

(** One stored record that is not an object makes
    [list_unfinished_folders] raise [AttributeError], whatever the filter
    and the other records. *)
Theorem list_unfinished_raises_on_bad_record
    (self : StateStore) (f : gmap pystr json)
    (status_filter : option (list pystr)) (i : pystr) (rec : json) :
  records self = Some f ->
  f !! i = Some rec -> ~ is_object rec ->
  list_unfinished_folders self status_filter = Raise AttributeError.
Proof.
  intros Hf Hi Hrec. unfold list_unfinished_folders.
  rewrite (records_folders _ _ Hf). bind_ok. simpl py_len. bind_ok.
  simpl dict_items. bind_ok. apply unfinished_loop_raises. eauto.
Qed.

Lemma list_unfinished_raises_on_bad_record_witness :
  list_unfinished_folders
    {| _state := JObj {[ folders_key :=
                           JObj (<[py "f2" := JNum 3]> sample_records) ]} |}
    None
  = Raise AttributeError.
Proof.
  apply (list_unfinished_raises_on_bad_record _
           (<[py "f2" := JNum 3]> sample_records) None (py "f2") (JNum 3)).
  - reflexivity.
  - reflexivity.
  - intros [].
Defined.

(** ** Marking, in closed form *)

Lemma mark_state (self : StateStore) (m f : gmap pystr json)
    (folder_id name status : pystr) (platforms : option (gmap pystr json)) :
  _state self = JObj m -> records self = Some f ->
  let st := JObj (<[folders_key :=
                      JObj (<[folder_id :=
                                folder_record name status platforms]> f)]> m) in
  mark_folder_status self folder_id name status platforms
  = Ok ({| _state := st |}, st).
Proof.
  destruct self as [st0]. simpl. intros ->. unfold records. simpl.
  unfold mark_folder_status. simpl.
  destruct (m !! folders_key) as [[| | | | |f']|] eqn:E; try done.
  - intros [= ->]. simpl. rewrite E. by simpl.
  - intros [= <-]. simpl. rewrite lookup_insert_eq. simpl.
    by rewrite insert_insert_eq.
Qed.

Lemma records_object (self : StateStore) (f : gmap pystr json) :
  records self = Some f -> exists m, _state self = JObj m.
Proof. intros (m & ? & _)%records_shape. eauto. Qed.

Lemma record_status_folder_record name status platforms :
  record_status (folder_record name status platforms) = JStr status.
Proof. done. Qed.

Lemma unfinished_insert (status_filter : list pystr) (f : gmap pystr json)
    (i : pystr) (rec : json) :
  unfinished status_filter (<[i := rec]> f)
  = if status_in (record_status rec) status_filter
    then <[i := rec]> (unfinished status_filter f)
    else delete i (unfinished status_filter f).
Proof.
  unfold unfinished.
  destruct (status_in (record_status rec) status_filter) eqn:E.
  - by rewrite map_filter_insert_True.
  - rewrite map_filter_insert_False; [|simpl; congruence].
    by rewrite map_filter_delete.
Qed.

(** After a folder is marked, [list_unfinished_folders] lists it, with the
    record just written, exactly when the new status is a member of the
    filter; otherwise it is not listed, whatever its record was before.
    The other folders are listed as they were. *)
Theorem mark_then_list_unfinished
    (self : StateStore) (f : gmap pystr json)
    (folder_id name status : pystr) (platforms : option (gmap pystr json))
    (status_filter : option (list pystr)) :
  records self = Some f ->
  map_Forall (fun _ rec => is_object rec) f ->
  exists self' before after,
    mark_folder_status self folder_id name status platforms
    = Ok (self', _state self')
    /\ list_unfinished_folders self status_filter = Ok before
    /\ list_unfinished_folders self' status_filter = Ok after
    /\ after !! folder_id
       = (if bool_decide (status ∈ or_default_filter status_filter)
          then Some (folder_record name status platforms) else None)
    /\ (forall other, other <> folder_id ->
          after !! other = before !! other).
Proof.
  intros Hf Hall.
  destruct (records_mark self f folder_id name status platforms Hf)
    as (self' & Hmark & Hrec).
  pose proof (list_unfinished_selects_by_status_aux self f status_filter
                Hf Hall) as Hbefore.
  assert (map_Forall (fun _ rec => is_object rec)
            (<[folder_id := folder_record name status platforms]> f))
    as Hall'.
  { apply map_Forall_insert_2; [exact I|done]. }
  pose proof (list_unfinished_selects_by_status_aux self' _ status_filter
                Hrec Hall') as Hafter.
  rewrite unfinished_insert, record_status_folder_record in Hafter.
  simpl status_in in Hafter.
  exists self'. eexists. eexists.
  split; [done|]. split; [done|]. split; [done|]. split.
  - case_bool_decide.
    + by rewrite lookup_insert_eq.
    + by rewrite lookup_delete_eq.
  - intros other Hne. case_bool_decide.
    + by rewrite lookup_insert_ne.
    + by rewrite lookup_delete_ne.
Qed.

Lemma mark_then_list_unfinished_witness :
  exists self' after,
    mark_folder_status {| _state := sample_document |}
      (py "f1") (py "ring-resin_12") (py "success") None
    = Ok (self', _state self')
    /\ list_unfinished_folders self' None = Ok after
    /\ after !! py "f1" = None.
Proof.
  destruct (mark_then_list_unfinished {| _state := sample_document |}
              sample_records (py "f1") (py "ring-resin_12") (py "success")
              None None eq_refl)
    as (self' & before & after & Hmark & _ & Hafter & Hid & _).
  - apply map_Forall_singleton. exact I.
  - exists self', after. split; [exact Hmark|]. split; [exact Hafter|].
    exact Hid.
Defined.

(** A folder that was marked, with whatever status, is not offered again
    by the loader that reads the document saved by the mark; the other
    listed folders are offered as before. *)
Theorem mark_then_loader_skips
    (self : StateStore) (f : gmap pystr json)
    (folder_id name status : pystr) (platforms : option (gmap pystr json))
    (all_folders : list loader.folder_meta) :
  records self = Some f ->
  exists self' saved,
    mark_folder_status self folder_id name status platforms
    = Ok (self', saved)
    /\ loader.find_new_product_folders (Some (Ok saved)) all_folders
       = Ok (filter (fun x => loader.id x <> folder_id
                              /\ f !! loader.id x = None) all_folders).
Proof.
  intros Hf. destruct (records_object _ _ Hf) as [m Hm].
  pose proof (mark_state self m f folder_id name status platforms Hm Hf)
    as Hmark. simpl in Hmark.
  eexists _, _. split; [exact Hmark|].
  unfold loader.find_new_product_folders.
  set (f' := <[folder_id := folder_record name status platforms]> f).
  assert (records (StateStore_init (Some (Ok (JObj (<[folders_key := JObj f']> m)))))
          = Some f') as Hrec.
  { by rewrite records_init_document, lookup_insert_eq. }
  rewrite (records_processed _ _ Hrec). bind_ok. f_equal.
  apply list_filter_iff. intros x. unfold f'.
  rewrite not_elem_of_dom, lookup_insert_None.
  split; intros [? ?]; split; congruence.
Qed.

Lemma mark_then_loader_skips_witness :
  exists self' saved,
    mark_folder_status {| _state := sample_document |}
      (py "f2") (py "earring-rose_9") (py "failed") None
    = Ok (self', saved)
    /\ loader.find_new_product_folders (Some (Ok saved))
         [ {| loader.id := py "f1"; loader.name := py "ring-resin_12";
              loader.createdTime := py "2024-01-01" |};
           {| loader.id := py "f2"; loader.name := py "earring-rose_9";
              loader.createdTime := py "2024-01-02" |};
           {| loader.id := py "f3"; loader.name := py "brooch-fern_7";
              loader.createdTime := py "2024-01-03" |} ]
       = Ok [ {| loader.id := py "f3"; loader.name := py "brooch-fern_7";
                 loader.createdTime := py "2024-01-03" |} ].
Proof.
  destruct (mark_then_loader_skips {| _state := sample_document |}
              sample_records (py "f2") (py "earring-rose_9") (py "failed")
              None
              [ {| loader.id := py "f1"; loader.name := py "ring-resin_12";
                   loader.createdTime := py "2024-01-01" |};
                {| loader.id := py "f2"; loader.name := py "earring-rose_9";
                   loader.createdTime := py "2024-01-02" |};
                {| loader.id := py "f3"; loader.name := py "brooch-fern_7";
                   loader.createdTime := py "2024-01-03" |} ]
              eq_refl)
    as (self' & saved & Hmark & Hnew).
  exists self', saved. split; [exact Hmark|].
  rewrite Hnew. reflexivity.
Defined.

(** Whenever [mark_folder_status] returns, on any store, the document it
    saved is the state it left in memory, and a store constructed from
    that document is the store it left: nothing is lost or added by the
    reload. *)
Theorem mark_saved_document_reloads
    (self self' : StateStore) (saved : json)
    (folder_id name status : pystr) (platforms : option (gmap pystr json)) :
  mark_folder_status self folder_id name status platforms
  = Ok (self', saved) ->
  saved = _state self'
  /\ StateStore_init (Some (Ok saved)) = self'
  /\ get_folder_record (StateStore_init (Some (Ok saved))) folder_id
     = Ok (folder_record name status platforms).
Proof.
  destruct self as [st]. unfold mark_folder_status. simpl.
  destruct st as [| | |s|l|m]; simpl; try done.
  - destruct (is_substring folders_key s); simpl; done.
  - destruct (existsb (is_str folders_key) l); simpl; done.
  - assert (forall m' : gmap pystr json, forall fo : json,
              (folders ← setitem fo folder_id
                            (folder_record name status platforms);
               st ← setitem (JObj m') folders_key folders;
               Ok ({| _state := st |}, _save {| _state := st |}))
              = Ok (self', saved) ->
              saved = _state self'
              /\ StateStore_init (Some (Ok saved)) = self'
              /\ get_folder_record (StateStore_init (Some (Ok saved)))
                   folder_id
                 = Ok (folder_record name status platforms)) as Hstep.
    { intros m' fo. destruct fo as [| | | | |g]; simpl; try done.
      intros [= <- <-]. split; [done|].
      assert (StateStore_init
                (Some (Ok (JObj (<[folders_key :=
                     JObj (<[folder_id :=
                               folder_record name status platforms]> g)]> m'))))
              = {| _state := JObj (<[folders_key :=
                     JObj (<[folder_id :=
                               folder_record name status platforms]> g)]> m')
                 |}) as ->.
      { unfold StateStore_init, _load. simpl.
        rewrite bool_decide_eq_true_2; [done|].
        rewrite lookup_insert_eq. eauto. }
      split; [done|].
      unfold get_folder_record. simpl.
      rewrite lookup_insert_eq. simpl. by rewrite lookup_insert_eq. }
    case_bool_decide as Hin; simpl.
    + destruct Hin as [fo ->]. apply Hstep.
    + rewrite lookup_insert_eq. apply Hstep.
Qed.

Lemma mark_saved_document_reloads_witness :
  exists self' saved,
    mark_folder_status {| _state := sample_document |}
      (py "f2") (py "earring-rose_9") (py "success")
      (Some {[ py "etsy" := JObj {[ py "status" := JStr (py "draft") ]} ]})
    = Ok (self', saved)
    /\ StateStore_init (Some (Ok saved)) = self'.
Proof.
  eexists _, _. split; [reflexivity|].
  eapply (mark_saved_document_reloads {| _state := sample_document |}).
  reflexivity.
Defined.


Lemma mark_state_object (m f : gmap pystr json)
    (folder_id name status : pystr) (platforms : option (gmap pystr json)) :
  m !! folders_key = Some (JObj f) ->
  let st := JObj (<[folders_key :=
                      JObj (<[folder_id :=
                                folder_record name status platforms]> f)]> m) in
  mark_folder_status {| _state := JObj m |} folder_id name status platforms
  = Ok ({| _state := st |}, st).
Proof.
  intros E. apply mark_state; [done|]. unfold records. simpl. by rewrite E.
Qed.

(** Marking the same folder twice leaves the store, and the document
    saved, that the second mark alone leaves: nothing of the first record,
    its platforms included, survives. *)
Theorem mark_last_write_wins
    (self : StateStore) (f : gmap pystr json) (folder_id : pystr)
    (name1 status1 : pystr) (platforms1 : option (gmap pystr json))
    (name2 status2 : pystr) (platforms2 : option (gmap pystr json)) :
  records self = Some f ->
  exists self' saved,
    mark_folder_status self folder_id name2 status2 platforms2
    = Ok (self', saved)
    /\ ('(s, _) ← mark_folder_status self folder_id name1 status1 platforms1;
        mark_folder_status s folder_id name2 status2 platforms2)
       = Ok (self', saved).
Proof.
  intros Hf. destruct (records_object _ _ Hf) as [m Hm].
  pose proof (mark_state self m f folder_id name2 status2 platforms2 Hm Hf)
    as H2. simpl in H2.
  pose proof (mark_state self m f folder_id name1 status1 platforms1 Hm Hf)
    as H1. simpl in H1.
  eexists _, _. split; [exact H2|]. rewrite H1. bind_ok.
  rewrite (mark_state_object _
             (<[folder_id := folder_record name1 status1 platforms1]> f)
             folder_id name2 status2 platforms2)
    by apply lookup_insert_eq.
  simpl. by rewrite !insert_insert_eq.
Qed.

Lemma mark_last_write_wins_witness :
  exists self' saved,
    mark_folder_status {| _state := sample_document |}
      (py "f1") (py "ring-resin_12") (py "success") None
    = Ok (self', saved)
    /\ ('(s, _) ← mark_folder_status {| _state := sample_document |}
                    (py "f1") (py "ring") (py "pending")
                    (Some {[ py "etsy" := JNull ]});
        mark_folder_status s (py "f1") (py "ring-resin_12") (py "success")
          None)
       = Ok (self', saved).
Proof.
  exact (mark_last_write_wins {| _state := sample_document |} sample_records
           (py "f1") (py "ring") (py "pending")
           (Some {[ py "etsy" := JNull ]})
           (py "ring-resin_12") (py "success") None eq_refl).
Defined.

(** Marks of two different folders can be made in either order: both
    orders return, and the two stores they leave answer alike, with the
    same set of recorded ids and the same record under every id.  The keys
    of the two documents saved come in the order of the marks, which this
    model of a [dict] does not record and the statement leaves out. *)
Theorem mark_different_folders_commute
    (self : StateStore) (f : gmap pystr json) (id1 id2 : pystr)
    (name1 status1 : pystr) (platforms1 : option (gmap pystr json))
    (name2 status2 : pystr) (platforms2 : option (gmap pystr json)) :
  records self = Some f -> id1 <> id2 ->
  exists s12 s21 saved12 saved21,
    ('(s, _) ← mark_folder_status self id1 name1 status1 platforms1;
     mark_folder_status s id2 name2 status2 platforms2)
    = Ok (s12, saved12)
    /\ ('(s, _) ← mark_folder_status self id2 name2 status2 platforms2;
        mark_folder_status s id1 name1 status1 platforms1)
       = Ok (s21, saved21)
    /\ get_processed_folder_ids s12 = get_processed_folder_ids s21
    /\ (exists ids, get_processed_folder_ids s12 = Ok ids
                    /\ ids = {[id1; id2]} ∪ dom f)
    /\ (forall i, get_folder_record s12 i = get_folder_record s21 i)
    /\ get_folder_record s12 id1
       = Ok (folder_record name1 status1 platforms1)
    /\ get_folder_record s12 id2
       = Ok (folder_record name2 status2 platforms2).
Proof.
  intros Hf Hne. destruct (records_object _ _ Hf) as [m Hm].
  pose proof (mark_state self m f id2 name2 status2 platforms2 Hm Hf)
    as H2. simpl in H2.
  pose proof (mark_state self m f id1 name1 status1 platforms1 Hm Hf)
    as H1. simpl in H1.
  rewrite H1, H2.
  set (r1 := folder_record name1 status1 platforms1) in *.
  set (r2 := folder_record name2 status2 platforms2) in *.
  assert (forall g : gmap pystr json,
            records {| _state := JObj (<[folders_key := JObj g]> m) |}
            = Some g) as Hrec.
  { intros g. unfold records. simpl. by rewrite lookup_insert_eq. }
  set (g12 := <[id2 := r2]> (<[id1 := r1]> f)).
  set (g21 := <[id1 := r1]> (<[id2 := r2]> f)).
  exists {| _state := JObj (<[folders_key := JObj g12]> m) |},
    {| _state := JObj (<[folders_key := JObj g21]> m) |},
    (JObj (<[folders_key := JObj g12]> m)),
    (JObj (<[folders_key := JObj g21]> m)).
  split.
  { bind_ok.
    rewrite (mark_state_object _ (<[id1 := r1]> f) id2 name2 status2
               platforms2) by apply lookup_insert_eq.
    simpl. by rewrite insert_insert_eq. }
  split.
  { bind_ok.
    rewrite (mark_state_object _ (<[id2 := r2]> f) id1 name1 status1
               platforms1) by apply lookup_insert_eq.
    simpl. by rewrite insert_insert_eq. }
  pose proof (Hrec g12) as H12. pose proof (Hrec g21) as H21.
  subst g12 g21.
  rewrite (records_processed _ _ H12), (records_processed _ _ H21).
  split; [|split; [|split; [|split]]].
  - by rewrite !dom_insert_L, (assoc_L (∪)), (comm_L (∪) {[id2]}),
      <- (assoc_L (∪)).
  - eexists. split; [done|].
    rewrite !dom_insert_L. apply set_eq. intros x.
    rewrite !elem_of_union, !elem_of_singleton. tauto.
  - intros i. rewrite (records_get _ _ i H12), (records_get _ _ i H21).
    by rewrite (insert_insert_ne f id1 id2).
  - rewrite (records_get _ _ id1 H12).
    by rewrite lookup_insert_ne, lookup_insert_eq.
  - rewrite (records_get _ _ id2 H12). by rewrite lookup_insert_eq.
Qed.

Lemma mark_different_folders_commute_witness :
  exists s12 s21,
    (exists saved,
       ('(s, _) ← mark_folder_status {| _state := sample_document |}
                    (py "f2") (py "earring-rose_9") (py "pending") None;
        mark_folder_status s (py "f3") (py "brooch-fern_7") (py "failed")
          None)
       = Ok (s12, saved))
    /\ (exists saved,
          ('(s, _) ← mark_folder_status {| _state := sample_document |}
                       (py "f3") (py "brooch-fern_7") (py "failed") None;
           mark_folder_status s (py "f2") (py "earring-rose_9")
             (py "pending") None)
          = Ok (s21, saved))
    /\ get_processed_folder_ids s12 = get_processed_folder_ids s21
    /\ get_folder_record s12 (py "f1") = get_folder_record s21 (py "f1").
Proof.
  destruct (mark_different_folders_commute {| _state := sample_document |}
              sample_records (py "f2") (py "f3")
              (py "earring-rose_9") (py "pending") None
              (py "brooch-fern_7") (py "failed") None eq_refl)
    as (s12 & s21 & saved12 & saved21 & H12 & H21 & Hids & _ & Hget & _).
  - by vm_compute.
  - exists s12, s21. split; [by exists saved12|]. split; [by exists saved21|].
    split; [exact Hids|apply Hget].
Defined.

(** ** Documents of another shape *)

(** A state document that is not an object is replaced by the empty state,
    unless it is an array with the string [folders] among its elements or
    a string that contains [folders]: such a document is kept by the
    constructor, and then every method of the store raises. *)
Theorem constructor_on_non_object_document (j : json) :
  ~ is_object j ->
  let store := StateStore_init (Some (Ok j)) in
  match py_in folders_key j with
  | Ok true =>
      _state store = j
      /\ get_processed_folder_ids store = Raise AttributeError
      /\ (forall folder_id,
            get_folder_record store folder_id = Raise AttributeError)
      /\ (forall status_filter,
            list_unfinished_folders store status_filter
            = Raise AttributeError)
      /\ (forall folder_id name status platforms,
            mark_folder_status store folder_id name status platforms
            = Raise TypeError)
  | _ => _state store = empty_state
  end.
Proof.
  intros Hj store. subst store. unfold StateStore_init, _load.
  destruct j as [| | |s|l|m]; simpl; try done.
  - unfold mark_folder_status. simpl.
    destruct (is_substring folders_key s) eqn:E; simpl; [|done].
    repeat split; try done. intros. by rewrite E.
  - unfold mark_folder_status. simpl.
    destruct (existsb (is_str folders_key) l) eqn:E; simpl; [|done].
    repeat split; try done. intros. by rewrite E.
Qed.

Lemma constructor_on_non_object_document_witness :
  let store := StateStore_init (Some (Ok (JArr [JStr (py "folders")]))) in
  _state store = JArr [JStr (py "folders")]
  /\ get_processed_folder_ids store = Raise AttributeError
  /\ mark_folder_status store (py "f1") (py "ring") (py "pending") None
     = Raise TypeError.
Proof.
  pose proof (constructor_on_non_object_document
                (JArr [JStr (py "folders")]) (fun H => H)) as H.
  simpl in H. destruct H as (H1 & H2 & _ & _ & H5).
  split; [exact H1|]. split; [exact H2|]. apply H5.
Defined.

(** A document that is an object whose [folders] entry is not an object is
    kept by the constructor as it is; reading its folders then raises
    [AttributeError] and marking a folder raises [TypeError], so nothing is
    saved. *)
Theorem constructor_keeps_bad_folders_entry
    (m : gmap pystr json) (v : json) :
  m !! folders_key = Some v -> ~ is_object v ->
  let store := StateStore_init (Some (Ok (JObj m))) in
  _state store = JObj m
  /\ get_processed_folder_ids store = Raise AttributeError
  /\ (forall folder_id,
        get_folder_record store folder_id = Raise AttributeError)
  /\ (forall status_filter,
        exists e, list_unfinished_folders store status_filter = Raise e)
  /\ (forall folder_id name status platforms,
        mark_folder_status store folder_id name status platforms
        = Raise TypeError).
Proof.
  intros E Hv store. subst store.
  assert (StateStore_init (Some (Ok (JObj m))) = {| _state := JObj m |})
    as ->.
  { unfold StateStore_init, _load. simpl.
    rewrite bool_decide_eq_true_2; [done|]. rewrite E. eauto. }
  split; [done|].
  unfold get_processed_folder_ids, get_folder_record,
    list_unfinished_folders, mark_folder_status. simpl. rewrite E. simpl.
  repeat split; try (intros; rewrite E); destruct v; simpl;
    try (by destruct Hv); eauto.
Qed.

Lemma constructor_keeps_bad_folders_entry_witness :
  let store :=
    StateStore_init (Some (Ok (JObj {[ folders_key := JArr [] ]}))) in
  get_processed_folder_ids store = Raise AttributeError
  /\ mark_folder_status store (py "f1") (py "ring") (py "pending") None
     = Raise TypeError.
Proof.
  assert (({[ folders_key := JArr [] ]} : gmap pystr json) !! folders_key
          = Some (JArr [])) as E by (vm_compute; reflexivity).
  destruct (constructor_keeps_bad_folders_entry
              {[ folders_key := JArr [] ]} (JArr []) E (fun H => H))
    as (_ & H2 & _ & _ & H5).
  split; [exact H2|apply H5].
Defined.

(** ** The first step of [run_once] *)

Section FirstStep.
Implicit Types (f : gmap pystr json) (l : list loader.folder_meta).

Lemma add_pending_lookup f l i r :
  add_pending f l !! i = Some r ->
  f !! i = Some r
  \/ exists x, x ∈ l /\ loader.id x = i /\ r = pending_record x.
Proof.
  revert f. induction l as [|y l IH]; intros f; simpl; [auto|].
  intros [H|(x & Hx & Hid & Hr)]%IH.
  - destruct (decide (loader.id y = i)) as [Heq|Hne].
    + rewrite Heq, lookup_insert_eq in H. injection H as <-.
      right. exists y. split; [left|done].
    + rewrite lookup_insert_ne in H by done. auto.
  - right. exists x. split; [by right|done].
Qed.

Lemma add_pending_keeps f l i :
  (forall x, x ∈ l -> loader.id x <> i) ->
  add_pending f l !! i = f !! i.
Proof.
  revert f. induction l as [|y l IH]; intros f Hl; simpl; [done|].
  rewrite IH.
  - apply lookup_insert_ne, Hl. left.
  - intros x Hx. apply Hl. by right.
Qed.

Lemma add_pending_grows f l i :
  is_Some (f !! i) -> is_Some (add_pending f l !! i).
Proof.
  revert f. induction l as [|y l IH]; intros f Hi; simpl; [done|].
  apply IH. destruct (decide (loader.id y = i)) as [<-|Hne].
  - rewrite lookup_insert_eq. eauto.
  - by rewrite lookup_insert_ne.
Qed.

Lemma add_pending_covers f l x :
  x ∈ l -> is_Some (add_pending f l !! loader.id x).
Proof.
  revert f. induction l as [|y l IH]; intros f; [by intros ?%elem_of_nil|].
  intros [->|Hx]%elem_of_cons; simpl; [|by apply IH].
  apply add_pending_grows. rewrite lookup_insert_eq. eauto.
Qed.

Lemma loader_skips_aux (file : backing) l f :
  records (StateStore_init file) = Some f ->
  loader.find_new_product_folders file l
  = Ok (filter (fun x => f !! loader.id x = None) l).
Proof.
  intros Hf. unfold loader.find_new_product_folders.
  rewrite (records_processed _ f Hf). bind_ok. f_equal.
  apply list_filter_iff. intros x. apply not_elem_of_dom.
Qed.

Lemma records_reload (state : StateStore) f :
  records state = Some f ->
  records (StateStore_init (Some (Ok (_state state)))) = Some f.
Proof.
  intros (m & -> & [E|[E ->]])%records_shape;
    by rewrite records_init_document, E.
Qed.

Lemma mark_pending_spec l (state : StateStore) (file : backing) f :
  records state = Some f ->
  exists state' file',
    run_once.mark_pending state l file = Ok (state', file')
    /\ records state' = Some (add_pending f l)
    /\ (l = [] -> state' = state /\ file' = file)
    /\ (l <> [] -> file' = Some (Ok (_state state'))).
Proof.
  unfold run_once.mark_pending.
  revert state file f. induction l as [|x l IH]; intros state file f Hf.
  - exists state, file. simpl. by repeat split.
  - simpl.
    destruct (records_mark state f (loader.id x) (loader.name x)
                (py "pending") (Some ∅) Hf) as (state1 & Hmark1 & Hrec1).
    rewrite Hmark1. bind_ok.
    destruct (IH state1 (Some (Ok (_state state1))) _ Hrec1)
      as (state' & file' & Hmark & Hrec & Hnil & Hcons).
    rewrite Hmark.
    exists state', file'. split; [done|]. split; [done|].
    split; [done|]. intros _.
    destruct l as [|y l]; [|by apply Hcons].
    destruct (Hnil eq_refl) as [-> ->]. done.
Qed.

Lemma first_step_spec (file : backing) l f :
  records (StateStore_init file) = Some f ->
  let new_folders := filter (fun x => f !! loader.id x = None) l in
  exists state' file',
    run_once.first_step file l = Ok (state', file')
    /\ records state' = Some (add_pending f new_folders)
    /\ records (StateStore_init file') = Some (add_pending f new_folders).
Proof.
  intros Hf new_folders. unfold run_once.first_step.
  rewrite (loader_skips_aux file l f Hf).
  bind_ok. fold new_folders.
  destruct (mark_pending_spec new_folders (StateStore_init file) file f Hf)
    as (state' & file' & Hmark & Hrec & Hnil & Hcons).
  destruct new_folders as [|x rest] eqn:E.
  - exists (StateStore_init file), file. simpl. done.
  - rewrite Hmark. exists state', file'. split; [done|]. split; [done|].
    rewrite Hcons by done. by apply records_reload.
Qed.

End FirstStep.

(** The first step of [run_once] on a store of the documented shape
    returns; it leaves every record that was there as it was (a failed
    folder stays failed), gives every listed folder a record, a pending
    one with the folder's name and no platform where there was none, and
    adds no record for an id that is not listed.  The document on disk at
    the end holds the same records as the store in memory. *)
Theorem first_step_marks_new_folders_pending
    (file : backing) (all_folders : list loader.folder_meta)
    (f : gmap pystr json) :
  records (StateStore_init file) = Some f ->
  exists state' file' f',
    run_once.first_step file all_folders = Ok (state', file')
    /\ records state' = Some f'
    /\ records (StateStore_init file') = Some f'
    /\ (forall i rec, f !! i = Some rec -> f' !! i = Some rec)
    /\ (forall x, x ∈ all_folders ->
          exists rec,
            f' !! loader.id x = Some rec
            /\ (f !! loader.id x = None ->
                exists y, y ∈ all_folders /\ loader.id y = loader.id x
                          /\ rec = pending_record y))
    /\ (forall i, (forall x, x ∈ all_folders -> loader.id x <> i) ->
          f' !! i = f !! i).
Proof.
  intros Hf.
  destruct (first_step_spec file all_folders f Hf)
    as (state' & file' & Hstep & Hrec & Hfile).
  set (new_folders := filter (fun x => f !! loader.id x = None) all_folders)
    in *.
  exists state', file', (add_pending f new_folders).
  split; [done|]. split; [done|]. split; [done|]. split; [|split].
  - intros i rec Hi. rewrite add_pending_keeps; [done|].
    intros x [Hx _]%list_elem_of_filter. congruence.
  - intros x Hx. destruct (f !! loader.id x) as [rec|] eqn:E.
    + exists rec. split; [|done]. rewrite add_pending_keeps; [done|].
      intros y [Hy _]%list_elem_of_filter. congruence.
    + assert (x ∈ new_folders) as Hnew by by apply list_elem_of_filter.
      destruct (add_pending_covers f new_folders x Hnew) as [rec Hrec'].
      exists rec. split; [done|]. intros _.
      destruct (add_pending_lookup _ _ _ _ Hrec')
        as [Hold|(y & [_ Hy]%list_elem_of_filter & Hid & ->)];
        [congruence|eauto].
  - intros i Hi. apply add_pending_keeps.
    intros x [_ Hx]%list_elem_of_filter. by apply Hi.
Qed.

Lemma first_step_marks_new_folders_pending_witness :
  exists state' file' f',
    run_once.first_step (Some (Ok sample_document))
      [ {| loader.id := py "f1"; loader.name := py "ring-resin_12";
           loader.createdTime := py "2024-01-01" |};
        {| loader.id := py "f2"; loader.name := py "earring-rose_9";
           loader.createdTime := py "2024-01-02" |} ]
    = Ok (state', file')
    /\ records state' = Some f'
    /\ f' !! py "f1" = sample_records !! py "f1".
Proof.
  destruct (first_step_marks_new_folders_pending (Some (Ok sample_document))
      [ {| loader.id := py "f1"; loader.name := py "ring-resin_12";
           loader.createdTime := py "2024-01-01" |};
        {| loader.id := py "f2"; loader.name := py "earring-rose_9";
           loader.createdTime := py "2024-01-02" |} ]
      sample_records eq_refl)
    as (state' & file' & f' & Hstep & Hrec & _ & Hold & _).
  exists state', file', f'. split; [exact Hstep|]. split; [exact Hrec|].
  apply Hold. reflexivity.
Defined.

(** After the first step of [run_once], the loader reading the document
    left on disk finds no new folder among the same listing, and a second
    first step changes nothing: it returns the store of that document and
    leaves the document as it is. *)
Theorem first_step_rerun_finds_nothing
    (file : backing) (all_folders : list loader.folder_meta)
    (f : gmap pystr json) :
  records (StateStore_init file) = Some f ->
  exists state' file',
    run_once.first_step file all_folders = Ok (state', file')
    /\ loader.find_new_product_folders file' all_folders = Ok []
    /\ run_once.first_step file' all_folders
       = Ok (StateStore_init file', file').
Proof.
  intros Hf.
  destruct (first_step_spec file all_folders f Hf)
    as (state' & file' & Hstep & Hrec & Hfile).
  set (new_folders := filter (fun x => f !! loader.id x = None) all_folders)
    in *.
  exists state', file'. split; [done|].
  assert (loader.find_new_product_folders file' all_folders = Ok [])
    as Hnone.
  { rewrite (loader_skips_aux file' all_folders _ Hfile). f_equal.
    apply elem_of_nil_inv. intros x [Hx Hin]%list_elem_of_filter.
    destruct (f !! loader.id x) as [rec|] eqn:E.
    - rewrite add_pending_keeps in Hx; [congruence|].
      intros y [Hy _]%list_elem_of_filter. congruence.
    - assert (x ∈ new_folders) as Hnew by by apply list_elem_of_filter.
      destruct (add_pending_covers f new_folders x Hnew) as [rec Hrec'].
      congruence. }
  split; [done|]. unfold run_once.first_step. by rewrite Hnone.
Qed.

Lemma first_step_rerun_finds_nothing_witness :
  exists state' file',
    run_once.first_step None
      [ {| loader.id := py "f1"; loader.name := py "ring-resin_12";
           loader.createdTime := py "2024-01-01" |};
        {| loader.id := py "f1"; loader.name := py "ring-resin_12 (copy)";
           loader.createdTime := py "2024-01-02" |} ]
    = Ok (state', file')
    /\ loader.find_new_product_folders file'
         [ {| loader.id := py "f1"; loader.name := py "ring-resin_12";
              loader.createdTime := py "2024-01-01" |};
           {| loader.id := py "f1"; loader.name := py "ring-resin_12 (copy)";
              loader.createdTime := py "2024-01-02" |} ]
       = Ok [].
Proof.
  destruct (first_step_rerun_finds_nothing None
      [ {| loader.id := py "f1"; loader.name := py "ring-resin_12";
           loader.createdTime := py "2024-01-01" |};
        {| loader.id := py "f1"; loader.name := py "ring-resin_12 (copy)";
           loader.createdTime := py "2024-01-02" |} ]
      ∅ eq_refl)
    as (state' & file' & Hstep & Hnone & _).
  exists state', file'. split; [exact Hstep|exact Hnone].
Defined.

Lemma add_pending_objects (f : gmap pystr json)
    (l : list loader.folder_meta) :
  map_Forall (fun _ rec => is_object rec) f ->
  map_Forall (fun _ rec => is_object rec) (add_pending f l).
Proof.
  revert f. induction l as [|x l IH]; intros f Hf; simpl; [done|].
  apply IH. apply map_Forall_insert_2; [exact I|done].
Qed.

(** The second step of [run_once] sees the work of the first: among the
    records it sets out to process are all the folders just discovered,
    each with the pending record written for it; of the folders recorded
    before, those and only those whose status is pending; and no other
    id. *)
Theorem second_step_processes_new_folders
    (file : backing) (all_folders : list loader.folder_meta)
    (f : gmap pystr json) :
  records (StateStore_init file) = Some f ->
  map_Forall (fun _ rec => is_object rec) f ->
  exists state' file' pending,
    run_once.first_step file all_folders = Ok (state', file')
    /\ pending_records file' = Ok pending
    /\ (forall x, x ∈ all_folders -> f !! loader.id x = None ->
          exists y, y ∈ all_folders /\ loader.id y = loader.id x
                    /\ pending !! loader.id x = Some (pending_record y))
    /\ (forall i rec, f !! i = Some rec ->
          pending !! i
          = if status_in (record_status rec) [py "pending"]
            then Some rec else None)
    /\ (forall i, f !! i = None ->
          (forall x, x ∈ all_folders -> loader.id x <> i) ->
          pending !! i = None).
Proof.
  intros Hf Hall.
  destruct (first_step_spec file all_folders f Hf)
    as (state' & file' & Hstep & Hrec & Hfile).
  set (new_folders := filter (fun x => f !! loader.id x = None) all_folders)
    in *.
  pose proof (add_pending_objects f new_folders Hall) as Hall'.
  exists state', file', (unfinished [py "pending"] (add_pending f new_folders)).
  split; [done|]. split.
  { unfold pending_records.
    by rewrite (list_unfinished_selects_by_status_aux _ _ _ Hfile Hall'). }
  unfold unfinished. split; [|split].
  - intros x Hx Hnone.
    assert (x ∈ new_folders) as Hnew by by apply list_elem_of_filter.
    destruct (add_pending_covers f new_folders x Hnew) as [rec Hrec'].
    destruct (add_pending_lookup _ _ _ _ Hrec')
      as [Hold|(y & [_ Hy]%list_elem_of_filter & Hid & ->)];
      [congruence|].
    exists y. split; [done|]. split; [done|].
    apply map_lookup_filter_Some. split; [done|]. reflexivity.
  - intros i rec Hi.
    assert (add_pending f new_folders !! i = Some rec) as Hi'.
    { rewrite add_pending_keeps; [done|].
      intros x [Hx _]%list_elem_of_filter. congruence. }
    destruct (status_in (record_status rec) [py "pending"]) eqn:Hst.
    + apply map_lookup_filter_Some. split; [done|]. done.
    + apply map_lookup_filter_None. right. intros rec' Hrec'. simpl.
      rewrite Hi' in Hrec'. injection Hrec' as <-. congruence.
  - intros i Hi Hno. apply map_lookup_filter_None. left.
    rewrite add_pending_keeps; [done|].
    intros x [_ Hx]%list_elem_of_filter. by apply Hno.
Qed.

Lemma second_step_processes_new_folders_witness :
  exists state' file' pending,
    run_once.first_step (Some (Ok sample_document))
      [ {| loader.id := py "f1"; loader.name := py "ring-resin_12";
           loader.createdTime := py "2024-01-01" |};
        {| loader.id := py "f2"; loader.name := py "earring-rose_9";
           loader.createdTime := py "2024-01-02" |} ]
    = Ok (state', file')
    /\ pending_records file' = Ok pending
    /\ pending !! py "f1" = None.
Proof.
  destruct (second_step_processes_new_folders (Some (Ok sample_document))
      [ {| loader.id := py "f1"; loader.name := py "ring-resin_12";
           loader.createdTime := py "2024-01-01" |};
        {| loader.id := py "f2"; loader.name := py "earring-rose_9";
           loader.createdTime := py "2024-01-02" |} ]
      sample_records eq_refl)
    as (state' & file' & pending & Hstep & Hpending & _ & Hold & _).
  - apply map_Forall_singleton. exact I.
  - exists state', file', pending.
    split; [exact Hstep|]. split; [exact Hpending|].
    rewrite (Hold (py "f1") _ eq_refl). reflexivity.
Defined.

(** ** [clean_tags] with any bound *)

Section CleanTagsMax.
Context (lower : pystr -> pystr).

Lemma clean_tags_loop_zero (tags : list pystr) :
  clean_tags_loop lower 0 tags [] ∅
  = take 1 (first_occurrences
              (filter (fun t => nonempty t = true)
                      ((fun t => lower (strip t)) <$> tags))).
Proof.
  induction tags as [|tag tags IH]; [done|].
  simpl clean_tags_loop. rewrite fmap_cons.
  destruct (nonempty (lower (strip tag))) eqn:Hne.
  - rewrite filter_cons_True by done.
    rewrite bool_decide_true by apply not_elem_of_empty.
    simpl. reflexivity.
  - rewrite filter_cons_False by (by rewrite Hne). simpl. apply IH.
Qed.

Lemma clean_tags_max_take (tags : list pystr) (max_count : nat) :
  clean_tags_max lower tags max_count
  = take (Nat.max max_count 1)
      (first_occurrences
         (filter (fun t => nonempty t = true)
                 ((fun t => lower (strip t)) <$> tags))).
Proof.
  unfold clean_tags_max. destruct tags as [|tag tags]; [by destruct max_count|].
  destruct max_count as [|n].
  - apply clean_tags_loop_zero.
  - rewrite clean_tags_loop_spec; [|set_solver|simpl; lia].
    replace (Nat.max (S n) 1) with (S n) by lia.
    cbv zeta. simpl app. f_equal. f_equal.
    apply filter_all, Forall_forall. intros y _. apply not_elem_of_nil.
Qed.

End CleanTagsMax.

(** [clean_tags] with a bound [max_count] returns the first
    [max(max_count, 1)] distinct non-empty normalized tags, in the order
    of their first occurrence: the bound is tested after a tag is added, so
    a bound of 0 still lets one tag through.  The result is never longer
    than [max(max_count, 1)] and, when some tag is not blank, never
    empty. *)
Theorem clean_tags_max_lets_one_through
    (lower : pystr -> pystr) (tags : list pystr) (max_count : nat) :
  let kept := filter (fun t => nonempty t = true)
                     ((fun t => lower (strip t)) <$> tags) in
  clean_tags_max lower tags max_count
  = take (Nat.max max_count 1) (first_occurrences kept)
  /\ (length (clean_tags_max lower tags max_count) <= Nat.max max_count 1)%nat
  /\ (kept <> [] -> clean_tags_max lower tags max_count <> [])
  /\ (kept <> [] -> length (clean_tags_max lower tags 0) = 1%nat).
Proof.
  intros kept. rewrite !clean_tags_max_take. fold kept.
  split; [done|]. split; [rewrite length_take; lia|].
  assert (kept <> [] ->
          exists x rest, first_occurrences kept = x :: rest) as Hcons.
  { destruct kept as [|x kept']; [done|]. intros _. simpl. eauto. }
  split.
  - intros (x & rest & ->)%Hcons.
    destruct (Nat.max max_count 1) eqn:E; [lia|]. done.
  - intros (x & rest & ->)%Hcons. done.
Qed.

Lemma clean_tags_max_lets_one_through_witness :
  length (clean_tags_max ascii_lower [py " Boho "; py "boho"; py "Wood"] 0)
  = 1%nat.
Proof.
  apply (clean_tags_max_lets_one_through ascii_lower
           [py " Boho "; py "boho"; py "Wood"] 0).
  by vm_compute.
Defined.

(** ** The sign of the price *)

(** The price of a draft that was returned is below zero exactly when the
    model's answer gives no price or one that is [<= 0] and the price
    parsed from the folder name is below zero: only the answer's price is
    tested against zero, a negative price in the folder name goes through.
    It is NaN exactly when the answer's price is NaN, or the answer gives
    no price or one that is [<= 0] and the folder name gives NaN (a name
    ending in [_nan]).  [float] is assumed to turn the answer's price,
    when that is an [int] above zero, into a float above zero. *)
Theorem draft_price_negative_iff
    (lower upper : pystr -> pystr)
    (float_of_int : Z -> option PrimFloat.float)
    (ai_json : AiJson) (folder_ctx : FolderContext) (draft : ProductDraft) :
  normalize_product lower upper float_of_int ai_json folder_ctx = Ok draft ->
  (forall z f, ai_price ai_json = Some (NInt z) -> (0 < z)%Z ->
     float_of_int z = Some f -> PrimFloat.ltb 0 f = true) ->
  let price := pd_price draft in
  let falls_back :=
    ai_price ai_json = None
    \/ exists p, ai_price ai_json = Some p /\ le_zero p = true in
  (PrimFloat.ltb price 0 = true
   <-> falls_back
       /\ exists q, price_from_name folder_ctx = Some q
                    /\ PrimFloat.ltb q 0 = true)
  /\ (price = PrimFloat.nan
      <-> ai_price ai_json = Some (NFloat PrimFloat.nan)
          \/ (falls_back
              /\ price_from_name folder_ctx = Some PrimFloat.nan)).
Proof.
  intros Hdraft%normalize_product_price Hint price falls_back.
  subst price falls_back.
  assert (forall x : option PrimFloat.float,
            (PrimFloat.ltb (or_num x 0) 0 = true
             <-> exists q, x = Some q /\ PrimFloat.ltb q 0 = true)
            /\ (or_num x 0 = PrimFloat.nan <-> x = Some PrimFloat.nan))
    as Hor.
  { intros [q|]; simpl.
    - destruct (PrimFloat.eqb q 0) eqn:E; split; split.
      + by vm_compute.
      + intros (q' & [= <-] & Hq). float_cases q.
      + intros H. symmetry in H. by apply float_nan_not_zero in H.
      + intros [= ->]. by vm_compute in E.
      + eauto.
      + by intros (q' & [= <-] & Hq).
      + by intros ->.
      + by intros [= ->].
    - split; split.
      + by vm_compute.
      + by intros (q & ? & _).
      + intros H. symmetry in H. by apply float_nan_not_zero in H.
      + done. }
  destruct (ai_price ai_json) as [p|] eqn:Hp.
  - destruct (le_zero p) eqn:Hle.
    + simpl in Hdraft. injection Hdraft as <-.
      destruct (Hor (price_from_name folder_ctx)) as [Hneg Hnan].
      split.
      * rewrite Hneg. split; [intros H; split; [right; eauto|done]|].
        by intros [_ H].
      * rewrite Hnan. split; [intros H; right; split; [right; eauto|done]|].
        intros [[= ->]|[_ H]]; [by vm_compute in Hle|done].
    + destruct p as [z|f]; simpl in Hdraft.
      * simpl in Hle. apply Z.leb_gt in Hle.
        destruct (float_of_int z) as [f|] eqn:Hz; [|done].
        injection Hdraft as <-.
        pose proof (Hint z f eq_refl Hle Hz) as Hf.
        split; split.
        -- intros H. float_cases f.
        -- intros [[?|(p & [= <-] & Hp')] _]; [done|].
           simpl in Hp'. apply Z.leb_le in Hp'. lia.
        -- intros ->. by vm_compute in Hf.
        -- intros [?|[[?|(p & [= <-] & Hp')] _]]; [done|done|].
           simpl in Hp'. apply Z.leb_le in Hp'. lia.
      * injection Hdraft as <-. simpl in Hle.
        split; split.
        -- intros H. float_cases f.
        -- intros [[?|(p & [= <-] & Hp')] _]; [done|].
           simpl in Hp'. congruence.
        -- intros ->. by left.
        -- intros [[= ->]|[[?|(p & [= <-] & Hp')] _]]; [done|done|].
           simpl in Hp'. congruence.
  - simpl in Hdraft. injection Hdraft as <-.
    destruct (Hor (price_from_name folder_ctx)) as [Hneg Hnan].
    split.
    + rewrite Hneg. split; [intros H; split; [by left|done]|].
      by intros [_ H].
    + rewrite Hnan. split; [intros H; right; split; [by left|done]|].
      intros [?|[_ H]]; done.
Qed.

Lemma draft_price_negative_iff_witness :
  exists draft,
    normalize_product ascii_lower ascii_upper int_to_float
      (answer_with (Some (NInt 0)) None)
      (context_of_name float_bin (py "f1") (py "ring-resin_-5"))
    = Ok draft
    /\ PrimFloat.ltb (pd_price draft) 0 = true.
Proof.
  eexists. split; [by vm_compute|].
  eapply (draft_price_negative_iff ascii_lower ascii_upper int_to_float
            (answer_with (Some (NInt 0)) None)
            (context_of_name float_bin (py "f1") (py "ring-resin_-5"))).
  - by vm_compute.
  - intros z f [= <-]. lia.
  - split; [right; eexists; split; [reflexivity|by vm_compute]|].
    eexists. split; by vm_compute.
Defined.

(** A folder named with a negative price gives a draft with that price,
    and a folder name that ends in [_nan] a draft whose price is NaN. *)
Example draft_price_negative_run :
  exists draft draft',
    normalize_product ascii_lower ascii_upper int_to_float
      (answer_with (Some (NInt 0)) None)
      (context_of_name float_bin (py "f1") (py "ring-resin_-5"))
    = Ok draft
    /\ pd_price draft = (-5)%float
    /\ normalize_product ascii_lower ascii_upper int_to_float
         (answer_with None None)
         (context_of_name float_bin (py "f1") (py "ring-resin_nan"))
       = Ok draft'
    /\ pd_price draft' = PrimFloat.nan.
Proof. eexists _, _. repeat split; by vm_compute. Qed.

(** ** [translate_material] and the entries of [clean_materials] *)

Section Materials.
Implicit Types (s t x : pystr) (ms : list pystr).

(** The English names are trimmed, not empty, and none of them is itself a
    key of the mapping. *)
Lemma MATERIALS_MAPPING_values :
  map_Forall (fun _ v => strip v = v /\ v <> []
                         /\ MATERIALS_MAPPING !! v = None)
             MATERIALS_MAPPING.
Proof.
  intros k v Hkv. unfold MATERIALS_MAPPING in Hkv at 1.
  apply elem_of_list_to_map_2 in Hkv.
  repeat (apply elem_of_cons in Hkv as [[= -> ->]|Hkv];
          [by vm_compute|]).
  by apply elem_of_nil in Hkv.
Qed.

Lemma translate_material_cases s :
  (exists v, MATERIALS_MAPPING !! strip s = Some v
             /\ translate_material s = v
             /\ strip v = v /\ v <> [] /\ MATERIALS_MAPPING !! v = None)
  \/ (MATERIALS_MAPPING !! strip s = None
      /\ translate_material s = strip s).
Proof.
  unfold translate_material.
  destruct (MATERIALS_MAPPING !! strip s) as [v|] eqn:E; [left|by right].
  exists v. split; [done|]. split; [done|].
  exact (MATERIALS_MAPPING_values _ _ E).
Qed.

Lemma translate_material_trimmed s :
  strip (translate_material s) = translate_material s.
Proof.
  destruct (translate_material_cases s)
    as [(v & _ & -> & Hv & _)|[_ ->]]; [done|apply strip_idem].
Qed.

Lemma translate_material_strip s :
  translate_material (strip s) = translate_material s.
Proof. unfold translate_material. by rewrite strip_idem. Qed.

Lemma translate_material_idem s :
  translate_material (translate_material s) = translate_material s.
Proof.
  destruct (translate_material_cases s)
    as [(v & _ & -> & Hv & _ & Hkey)|[Hnone ->]].
  - unfold translate_material. by rewrite Hv, Hkey.
  - unfold translate_material. by rewrite strip_idem, Hnone.
Qed.

Lemma translate_material_empty s :
  translate_material s = [] <-> strip s = [].
Proof.
  destruct (translate_material_cases s)
    as [(v & Hkey & -> & _ & Hne & _)|[_ ->]]; [|done].
  split; [done|]. intros Hs. rewrite Hs in Hkey. by vm_compute in Hkey.
Qed.

Lemma cons_head_elem (c : N) (l : list pystr) t :
  t ∈ cons_head c l ->
  (exists t', t = c :: t' /\ (t' ∈ l \/ l = [] /\ t' = [])) \/ t ∈ l.
Proof.
  destruct l as [|h l]; simpl.
  - intros ->%list_elem_of_singleton. left. exists []. auto.
  - intros [->|Ht]%elem_of_cons.
    + left. exists h. split; [done|]. left. left.
    + right. by right.
Qed.

Lemma re_split_runs_pieces (cls : N -> bool) (in_run : bool) s t c :
  t ∈ re_split_runs cls in_run s -> c ∈ t -> cls c = false.
Proof.
  revert in_run t. induction s as [|x s IH]; intros in_run t; simpl.
  - intros ->%list_elem_of_singleton Hc. by apply elem_of_nil in Hc.
  - destruct (cls x) eqn:Hx.
    + destruct in_run; [apply IH|].
      intros [->|Ht]%elem_of_cons; [by intros ?%elem_of_nil|].
      by apply (IH true).
    + intros [(t' & -> & [Ht'|[_ ->]])|Ht]%cons_head_elem.
      * intros [->|Hc]%elem_of_cons; [done|]. by apply (IH false t').
      * intros [->|Hc]%elem_of_cons; [done|]. by apply elem_of_nil in Hc.
      * by apply (IH false).
Qed.

Lemma strip_no_space s :
  (forall c, c ∈ s -> isspace c = false) -> strip s = s.
Proof.
  intros Hs. unfold strip.
  assert (forall u, (forall c, c ∈ u -> isspace c = false) -> lstrip u = u)
    as Hl.
  { intros [|c u] Hu; [done|]. simpl. rewrite Hu; [done|left]. }
  rewrite Hl by done.
  induction s as [|c s IH]; [done|].
  simpl. rewrite IH by (intros c' ?; apply Hs; by right).
  destruct s as [|c' s]; [|done].
  rewrite Hs; [done|left].
Qed.

Lemma materials_piece_trimmed (raw : pystr) t :
  t ∈ re_split_runs materials_class false raw -> strip t = t.
Proof.
  intros Ht. apply strip_no_space. intros c Hc.
  pose proof (re_split_runs_pieces _ _ _ _ _ Ht Hc) as Hcls.
  unfold materials_class in Hcls.
  by apply orb_false_iff in Hcls as [_ ?].
Qed.

Lemma clean_materials_fixed ms (folder_ctx : FolderContext) x :
  x ∈ clean_materials ms folder_ctx ->
  strip x = x /\ translate_material x = x.
Proof.
  intros [(m & _ & _ & ->)|(_ & t & _ & _ & ->)]%clean_materials_elem;
    split; try apply translate_material_trimmed;
    apply translate_material_idem.
Qed.

Lemma clean_materials_ext ms1 ms2 (ctx1 ctx2 : FolderContext) :
  (forall x, x ∈ clean_materials ms1 ctx1 <-> x ∈ clean_materials ms2 ctx2) ->
  clean_materials ms1 ctx1 = clean_materials ms2 ctx2.
Proof.
  unfold clean_materials, sorted. cbv zeta. intros H.
  f_equal. f_equal. apply set_eq. intros x. specialize (H x).
  by rewrite !merge_sort_Permutation, !elem_of_elements in H.
Qed.

End Materials.

(** Every entry of the result of [clean_materials] is trimmed and is its
    own translation.  The empty string is an entry exactly when the answer
    lists a material that is not empty but blank: the answer's materials
    are tested before they are trimmed, those of the folder name after. *)
Theorem clean_materials_blank_entry
    (materials : list pystr) (folder_ctx : FolderContext) :
  (forall x, x ∈ clean_materials materials folder_ctx ->
     strip x = x /\ translate_material x = x)
  /\ ([] ∈ clean_materials materials folder_ctx
      <-> exists m, m ∈ materials /\ m <> [] /\ strip m = []).
Proof.
  split; [intros x; apply clean_materials_fixed|].
  rewrite clean_materials_elem. split.
  - intros [(m & Hm & Hne & Hx)|(_ & t & Ht & Hne & Hx)].
    + exists m. split; [done|]. split; [by intros ->|].
      symmetry in Hx. apply translate_material_empty in Hx.
      by rewrite strip_idem in Hx.
    + symmetry in Hx. apply translate_material_empty in Hx.
      rewrite strip_idem in Hx. by rewrite Hx in Hne.
  - intros (m & Hm & Hne & Hs). left. exists m. split; [done|].
    split; [by destruct m|]. symmetry.
    apply translate_material_empty. by rewrite strip_idem.
Qed.

(** [clean_materials] applied to its own result, with the same folder,
    returns that result, provided no blank material slipped in as an empty
    entry (a second pass would drop it). *)
Theorem clean_materials_idempotent
    (materials : list pystr) (folder_ctx : FolderContext) :
  [] ∉ clean_materials materials folder_ctx ->
  clean_materials (clean_materials materials folder_ctx) folder_ctx
  = clean_materials materials folder_ctx.
Proof.
  intros Hblank. apply clean_materials_ext. intros x.
  rewrite (clean_materials_elem (clean_materials _ _)). split.
  - intros [(m & Hm & _ & ->)|Hfolder].
    + destruct (clean_materials_fixed _ _ _ Hm) as [-> ->]. done.
    + apply clean_materials_elem. by right.
  - intros Hx. left. exists x. split; [done|].
    destruct (clean_materials_fixed _ _ _ Hx) as [Hs Ht].
    split; [|by rewrite Hs, Ht].
    destruct x; [done|done].
Qed.

Lemma clean_materials_idempotent_witness :
  clean_materials
    (clean_materials [[0x677E; 0x679C]; py " resin "; py "Resin"]
       (context_of_name float_bin (py "f1")
          (py "necklace-pinecone,gold-hill_39.9")))
    (context_of_name float_bin (py "f1")
       (py "necklace-pinecone,gold-hill_39.9"))
  = clean_materials [[0x677E; 0x679C]; py " resin "; py "Resin"]
      (context_of_name float_bin (py "f1")
         (py "necklace-pinecone,gold-hill_39.9")).
Proof.
  apply (clean_materials_idempotent
           [[0x677E; 0x679C]; py " resin "; py "Resin"]
           (context_of_name float_bin (py "f1")
              (py "necklace-pinecone,gold-hill_39.9"))).
  apply (bool_decide_unpack _). vm_compute. exact I.
Defined.

(** A blank material in the answer becomes an empty entry. *)
Example clean_materials_blank_run :
  clean_materials [py " "; py "resin"] (bare_context (py "f1") (py "n"))
  = [[]; py "resin"].
Proof. by vm_compute. Qed.

(** ** The title *)

Section Title.
Implicit Types (s t u : pystr) (c d : N).







Lemma lstrip_head s c r : lstrip s = c :: r -> isspace c = false.
Proof.
  induction s as [|x s IH]; [done|]. simpl.
  destruct (isspace x) eqn:Hx; [done|]. by intros [= <- _].
Qed.

Lemma strip_head s c r : strip s = c :: r -> isspace c = false.
Proof. unfold strip. rewrite lstrip_rstrip. apply lstrip_head. Qed.






Section Upper.
Context (upper : pystr -> pystr).
Hypothesis upper_letter :
  forall c, isspace c = false ->
    upper [c] <> [] /\ forall x, x ∈ upper [c] -> isspace x = false.



End Upper.
End Title.




(** ** The parsers on any name *)

Section ParserShape.
Context {F : Type} (float : pystr -> option F).
Implicit Types (name l p t : pystr) (ts : list pystr) (price : option F).

Lemma cut_last_elem (c : N) l :
  c ∈ l -> exists a b, cut_last c l = Some (a, b).
Proof.
  induction l as [|x l IH]; [by intros ?%elem_of_nil|].
  intros Hc. simpl. destruct (cut_last c l) as [[a b]|] eqn:E; [eauto|].
  destruct (N.eqb_spec x c) as [->|Hne]; [eauto|].
  apply elem_of_cons in Hc as [->|Hc]; [done|].
  destruct (IH Hc) as (a & b & ?). done.
Qed.

(** The first stage never raises. *)
Lemma price_stage_total name :
  exists l price,
    folder_utils.price_stage float name = Ok (l, price)
    /\ (((underscore ∉ name) /\ l = name /\ price = None)
        \/ exists p, name = l ++ underscore :: p /\ (underscore ∉ p)
                     /\ price = float (strip p)).
Proof.
  destruct (decide (underscore ∈ name)) as [Hin|Hout].
  - destruct (cut_last_elem _ _ Hin) as (a & b & E).
    destruct (cut_last_Some _ _ _ _ E) as [-> Hb].
    exists a, (float (strip b)). split; [by apply price_stage_suffix|].
    right. by exists b.
  - exists name, None. split; [by apply price_stage_plain|]. by left.
Qed.

Lemma split_pieces (c : N) l t : t ∈ split c l -> c ∉ t.
Proof.
  revert t. induction l as [|x l IH]; intros t; simpl.
  - intros ->%list_elem_of_singleton. apply not_elem_of_nil.
  - destruct (N.eqb_spec x c) as [->|Hne].
    + intros [->|Ht]%elem_of_cons; [apply not_elem_of_nil|by apply IH].
    + intros [(t' & -> & [Ht'|[_ ->]])|Ht]%cons_head_elem.
      * apply not_elem_of_cons. split; [done|by apply IH].
      * apply not_elem_of_cons. split; [done|apply not_elem_of_nil].
      * by apply IH.
Qed.

(** What the hyphen stage keeps: trimmed, not empty, free of hyphens. *)
Lemma hyphen_parts_token l t :
  t ∈ strip <$> filter (fun q => nonempty (strip q) = true) (split hyphen l)
  -> token t.
Proof.
  intros (q & -> & [Hq Hin]%list_elem_of_filter)%list_elem_of_fmap.
  split; [by destruct (strip q)|]. split; [|apply strip_idem].
  intros Hh%elem_of_strip. by apply (split_pieces _ _ _ Hin).
Qed.

Lemma token_ends t : strip t = t -> lstrip t = t /\ rstrip t = t.
Proof.
  intros Ht.
  assert (lstrip t = t) as Hl.
  { destruct t as [|c t']; [done|]. simpl.
    by rewrite (strip_head _ _ _ Ht). }
  split; [done|]. unfold strip in Ht. by rewrite Hl in Ht.
Qed.

Lemma rstrip_join ts :
  Forall (fun t => strip t = t) ts ->
  rstrip (join hyphen ts) = join hyphen ts.
Proof.
  induction 1 as [|t ts Ht _ IH]; [done|].
  destruct ts as [|t' ts]; [by apply token_ends|].
  change (join hyphen (t :: t' :: ts))
    with (t ++ hyphen :: join hyphen (t' :: ts)).
  by rewrite rstrip_around, IH.
Qed.

Lemma strip_join ts :
  Forall (fun t => strip t = t) ts ->
  strip (join hyphen ts) = join hyphen ts.
Proof.
  intros Hts. unfold strip.
  assert (lstrip (join hyphen ts) = join hyphen ts) as ->;
    [|by apply rstrip_join].
  destruct Hts as [|t ts Ht Hts]; [done|].
  destruct ts as [|t' ts]; [by apply token_ends|].
  change (join hyphen (t :: t' :: ts))
    with (t ++ hyphen :: join hyphen (t' :: ts)).
  rewrite lstrip_around by done. by rewrite (proj1 (token_ends _ Ht)).
Qed.

(** The second stage, by the number of tokens kept. *)
Lemma hyphen_stage_shape l price :
  let parts := filter (fun q => nonempty (strip q) = true) (split hyphen l) in
  (parts = [] -> folder_utils.hyphen_stage l price = Raise IndexError)
  /\ (parts <> [] ->
      exists product_type materials_str series,
        folder_utils.hyphen_stage l price
        = Ok (product_type, materials_str, series, price)
        /\ strip product_type = product_type
        /\ strip materials_str = materials_str
        /\ strip series = series
        /\ (hyphen ∉ product_type) /\ (hyphen ∉ series)
        /\ (product_type <> [] \/ series <> [])
        /\ (materials_str <> [] -> product_type <> [])
        /\ (series = [] <-> length parts = 2%nat)).
Proof.
  intros parts. split.
  - intros Hnil. unfold folder_utils.hyphen_stage. fold parts.
    by rewrite Hnil.
  - intros Hne.
    pose proof (hyphen_parts_token l) as Htok. fold parts in Htok.
    unfold folder_utils.hyphen_stage. fold parts.
    destruct parts as [|q1 [|q2 qs]]; [done|..].
    + simpl. destruct (Htok (strip q1)) as (H1 & H2 & H3); [left|].
      exists [], [], (strip q1). repeat split; try done; auto.
      by intros ?%elem_of_nil.
    + destruct qs as [|q3 qs _] using rev_ind.
      * simpl.
        destruct (Htok (strip q1)) as (H1 & H2 & H3); [left|].
        destruct (Htok (strip q2)) as (H4 & H5 & H6); [right; left|].
        exists (strip q1), (strip q2), []. repeat split; try done; auto.
        by intros ?%elem_of_nil.
      * rewrite !fmap_cons, fmap_app in *. simpl fmap in *.
        rewrite !bool_decide_false
          by (simpl; rewrite length_app; simpl; lia).
        change (strip q1 :: strip q2 :: (strip <$> qs) ++ [strip q3])
          with (strip q1 :: (strip q2 :: (strip <$> qs)) ++ [strip q3])
          in *.
        rewrite getitem_last_snoc, slice_middle.
        destruct (Htok (strip q1)) as (H1 & H2 & H3); [left|].
        destruct (Htok (strip q3)) as (H4 & H5 & H6).
        { right. apply elem_of_app. right. left. }
        eexists _, _, _. split; [reflexivity|].
        split; [done|]. split.
        { apply strip_join. apply Forall_forall. intros t Ht.
          apply Htok. right. apply elem_of_app. by left. }
        split; [done|]. split; [done|]. split; [done|].
        split; [by left|]. split; [done|].
        split; [done|]. simpl. rewrite length_app. simpl. lia.
Qed.

End ParserShape.

(** [folder_utils.parse_folder_name] on any name: it raises, and then
    [IndexError], exactly when the part before the last underscore (the
    whole name when there is none) has no hyphen token that is not blank.
    Otherwise it returns; the price is what [float] makes of the trimmed
    part after the last underscore; the three strings are trimmed; the
    product type and the series are free of hyphens; one of them is not
    empty; and the series is empty exactly when two tokens were kept. *)
Theorem folder_utils_raises_iff_no_token
    {F : Type} (float : pystr -> option F) (name : pystr) :
  exists l price,
    (((underscore ∉ name) /\ l = name /\ price = None)
     \/ exists p, name = l ++ underscore :: p /\ (underscore ∉ p)
                  /\ price = float (strip p))
    /\ let parts :=
         filter (fun q => nonempty (strip q) = true) (split hyphen l) in
       (parts = [] ->
        folder_utils.parse_folder_name float name = Raise IndexError)
       /\ (parts <> [] ->
           exists product_type materials_str series,
             folder_utils.parse_folder_name float name
             = Ok (product_type, materials_str, series, price)
             /\ strip product_type = product_type
             /\ strip materials_str = materials_str
             /\ strip series = series
             /\ (hyphen ∉ product_type) /\ (hyphen ∉ series)
             /\ (product_type <> [] \/ series <> [])
             /\ (materials_str <> [] -> product_type <> [])
             /\ (series = [] <-> length parts = 2%nat)).
Proof.
  destruct (price_stage_total float name) as (l & price & Hstage & Hl).
  exists l, price. split; [done|].
  unfold folder_utils.parse_folder_name. rewrite Hstage. bind_ok.
  apply hyphen_stage_shape.
Qed.

(** Four tokens and a price: the middle ones stay joined. *)
Example folder_utils_four_tokens :
  folder_utils.parse_folder_name float_dec
    (py " necklace - pinecone-whiteberry - hill _ 39.9 ")
  = Ok (py "necklace", py "pinecone-whiteberry", py "hill", Some 39.9%Q).
Proof. by vm_compute. Qed.

Section ProcessorShape.
Context {F : Type} (float : pystr -> option F).

(** The pieces of [split(c, n)] before the last possible one hold no
    separator. *)
Lemma split_max_lookup (c : N) (s : pystr) (n i : nat) (t : pystr) :
  (i < n)%nat -> split_max c s n !! i = Some t -> c ∉ t.
Proof.
  revert n i t. induction s as [|x s IH]; intros n i t Hi.
  - destruct n as [|n]; [lia|]. simpl.
    destruct i; [|done]. intros [= <-]. apply not_elem_of_nil.
  - destruct n as [|n]; [lia|]. simpl.
    destruct (N.eqb_spec x c) as [->|Hne].
    + destruct i as [|i]; simpl.
      * intros [= <-]. apply not_elem_of_nil.
      * destruct n as [|n]; [lia|]. apply IH. lia.
    + destruct (split_max c s (S n)) as [|h r] eqn:E; simpl.
      * destruct i; [|done]. intros [= <-].
        apply not_elem_of_cons. split; [done|apply not_elem_of_nil].
      * destruct i as [|i]; simpl.
        -- intros [= <-]. apply not_elem_of_cons. split; [done|].
           apply (IH (S n) 0%nat); [lia|by rewrite E].
        -- intros Ht. apply (IH (S n) (S i)); [lia|by rewrite E].
Qed.

Lemma split_max_total (c : N) (s : pystr) (n i : nat) :
  (i < n)%nat -> c ∉ split_max c s n !!! i.
Proof.
  intros Hi. destruct (split_max c s n !! i) as [t|] eqn:E.
  - rewrite (list_lookup_total_correct _ _ _ E).
    by apply (split_max_lookup c s n i).
  - rewrite list_lookup_total_alt, E. apply not_elem_of_nil.
Qed.

Lemma processor_hyphen_stage_shape (base_part : pystr) (price : option F) :
  let d := processor.hyphen_stage base_part price in
  (hyphen ∉ processor.product_type d)
  /\ (hyphen ∉ processor.materials_raw d)
  /\ strip (processor.product_type d) = processor.product_type d
  /\ strip (processor.materials_raw d) = processor.materials_raw d
  /\ strip (processor.series d) = processor.series d
  /\ processor.price d = price
  /\ ((hyphen ∉ base_part) ->
      processor.product_type d = strip base_part
      /\ processor.materials_raw d = [] /\ processor.series d = []).
Proof.
  simpl. repeat split.
  - case_bool_decide; [|apply not_elem_of_nil].
    intros Hh%elem_of_strip. revert Hh. apply split_max_total. lia.
  - case_bool_decide; [|apply not_elem_of_nil].
    intros Hh%elem_of_strip. revert Hh. apply split_max_total. lia.
  - case_bool_decide; [apply strip_idem|done].
  - case_bool_decide; [apply strip_idem|done].
  - case_bool_decide; [apply strip_idem|done].
  - by rewrite split_max_no_sep.
  - by rewrite split_max_no_sep.
  - by rewrite split_max_no_sep.
Qed.

End ProcessorShape.

(** [processor.parse_folder_name] on any name: the product type and the
    materials are free of hyphens (what follows the second hyphen goes to
    the series, hyphens included); the three strings are trimmed; without
    an underscore there is no price and, without a hyphen either, the
    trimmed name is the product type and the rest is empty. *)
Theorem processor_fields_shape
    {F : Type} (float : pystr -> option F) (name : pystr) :
  let d := processor.parse_folder_name float name in
  (hyphen ∉ processor.product_type d)
  /\ (hyphen ∉ processor.materials_raw d)
  /\ strip (processor.product_type d) = processor.product_type d
  /\ strip (processor.materials_raw d) = processor.materials_raw d
  /\ strip (processor.series d) = processor.series d
  /\ ((underscore ∉ name) -> processor.price d = None)
  /\ ((underscore ∉ name) -> (hyphen ∉ name) ->
      processor.product_type d = strip name
      /\ processor.materials_raw d = [] /\ processor.series d = []).
Proof.
  intros d. subst d. unfold processor.parse_folder_name.
  destruct (rpartition underscore (strip name)) as [[base_part sep] price_part]
    eqn:Hpart.
  assert ((underscore ∉ name) ->
          base_part = [] /\ sep = [] /\ price_part = strip name) as Hplain.
  { intros Hu. unfold rpartition in Hpart.
    rewrite cut_last_None in Hpart by (by intros ?%elem_of_strip).
    by injection Hpart as <- <- <-. }
  destruct (nonempty sep) eqn:Hsep.
  - destruct (processor_hyphen_stage_shape base_part (float price_part))
      as (H1 & H2 & H3 & H4 & H5 & H6 & _).
    split; [done|]. split; [done|]. split; [done|]. split; [done|].
    split; [done|]. split.
    + intros (_ & -> & _)%Hplain. done.
    + intros (_ & -> & _)%Hplain. done.
  - destruct (processor_hyphen_stage_shape (F:=F) (strip name) None)
      as (H1 & H2 & H3 & H4 & H5 & H6 & H7).
    split; [done|]. split; [done|]. split; [done|]. split; [done|].
    split; [done|]. split; [done|].
    intros _ Hh. rewrite strip_idem in H7. apply H7.
    by intros ?%elem_of_strip.
Qed.

(** Four tokens: the last two stay together in the series. *)
Example processor_four_tokens :
  processor.as_tuple
    (processor.parse_folder_name float_dec
       (py " necklace - pinecone-whiteberry - hill _39.9 "))
  = (py "necklace", py "pinecone", py "whiteberry - hill", Some 39.9%Q).
Proof. by vm_compute. Qed.

(** ** [classify_files] *)

Section Classify.
Implicit Types (f : json) (files images others : list json).

Let step (acc : pyresult (list json * list json)) f :=
  '(images, others) ← acc;
  mime ← dict_get f (py "mimeType") (JStr []);
  is_image ← startswith_image mime;
  if is_image : bool then Ok (images ++ [f], others)
  else Ok (images, others ++ [f]).

Lemma classify_step_readable f s images others :
  mime_of f = Some s ->
  step (Ok (images, others)) f
  = if is_image f then Ok (images ++ [f], others)
    else Ok (images, others ++ [f]).
Proof.
  unfold step, is_image, mime_of.
  destruct f as [| | | | |m]; try done.
  simpl. by destruct (m !! py "mimeType") as [[| | |s'| |]|].
Qed.

Lemma classify_step_unreadable f images others :
  mime_of f = None ->
  step (Ok (images, others)) f = Raise AttributeError.
Proof.
  unfold step, mime_of.
  destruct f as [| | | | |m]; try done.
  simpl. by destruct (m !! py "mimeType") as [[| | |s'| |]|].
Qed.

Lemma classify_loop_raise files e : foldl step (Raise e) files = Raise e.
Proof. induction files as [|f files IH]; [done|]. simpl. apply IH. Qed.

Lemma classify_loop files images others :
  Forall (fun f => is_Some (mime_of f)) files ->
  foldl step (Ok (images, others)) files
  = Ok (images ++ filter (fun f => is_image f = true) files,
        others ++ filter (fun f => is_image f = false) files).
Proof.
  intros Hfiles. revert images others.
  induction Hfiles as [|f files [s Hf] _ IH]; intros images others.
  - simpl. by rewrite !app_nil_r.
  - cbn [foldl]. rewrite (classify_step_readable _ _ _ _ Hf).
    destruct (is_image f) eqn:Himg.
    + rewrite IH, filter_cons_True, filter_cons_False by congruence.
      by rewrite <- app_assoc.
    + rewrite IH, filter_cons_False, filter_cons_True by congruence.
      by rewrite <- app_assoc.
Qed.

Lemma classify_loop_unreadable files images others :
  Exists (fun f => mime_of f = None) files ->
  foldl step (Ok (images, others)) files = Raise AttributeError.
Proof.
  intros Hfiles. revert images others.
  induction Hfiles as [f files Hf|f files _ IH]; intros images others.
  - cbn [foldl]. rewrite (classify_step_unreadable _ _ _ Hf).
    apply classify_loop_raise.
  - cbn [foldl]. destruct (mime_of f) as [s|] eqn:Hf.
    + rewrite (classify_step_readable _ _ _ _ Hf).
      destruct (is_image f); apply IH.
    + rewrite (classify_step_unreadable _ _ _ Hf).
      apply classify_loop_raise.
Qed.

End Classify.

(** [classify_files] on entries that are all objects with a string for
    [mimeType], or none, returns the images (the type starts with
    [image/]) and the other entries, each list in the order of the
    listing; together they are the listing, no entry lost or repeated.  One
    entry of another kind makes it raise [AttributeError]. *)
Theorem classify_files_partition (files : list json) :
  (Forall (fun f => is_Some (mime_of f)) files ->
   exists images others,
     classify_files files = Ok (images, others)
     /\ images = filter (fun f => is_image f = true) files
     /\ others = filter (fun f => is_image f = false) files
     /\ images ++ others ≡ₚ files
     /\ sublist images files /\ sublist others files)
  /\ (Exists (fun f => mime_of f = None) files ->
      classify_files files = Raise AttributeError).
Proof.
  split.
  - intros Hfiles. eexists _, _. split.
    { unfold classify_files. by rewrite classify_loop. }
    simpl. split; [done|]. split; [done|]. split.
    + rewrite (list_filter_iff (fun f => is_image f = false)
                 (fun f => ~ is_image f = true))
        by (intros f; by destruct (is_image f)).
      apply filter_app_complement.
    + split; apply sublist_filter.
  - apply classify_loop_unreadable.
Qed.

Lemma classify_files_partition_witness :
  exists images others,
    classify_files
      [ JObj {[ py "name" := JStr (py "note.txt");
                py "mimeType" := JStr (py "text/plain") ]};
        JObj {[ py "name" := JStr (py "a.jpg");
                py "mimeType" := JStr (py "image/jpeg") ]};
        JObj {[ py "name" := JStr (py "raw") ]};
        JObj {[ py "name" := JStr (py "b.png");
                py "mimeType" := JStr (py "image/png") ]} ]
    = Ok (images, others)
    /\ images
       = [ JObj {[ py "name" := JStr (py "a.jpg");
                   py "mimeType" := JStr (py "image/jpeg") ]};
           JObj {[ py "name" := JStr (py "b.png");
                   py "mimeType" := JStr (py "image/png") ]} ].
Proof.
  destruct (proj1 (classify_files_partition
      [ JObj {[ py "name" := JStr (py "note.txt");
                py "mimeType" := JStr (py "text/plain") ]};
        JObj {[ py "name" := JStr (py "a.jpg");
                py "mimeType" := JStr (py "image/jpeg") ]};
        JObj {[ py "name" := JStr (py "raw") ]};
        JObj {[ py "name" := JStr (py "b.png");
                py "mimeType" := JStr (py "image/png") ]} ]))
    as (images & others & Hrun & Himages & _).
  - repeat (apply List.Forall_cons; [by vm_compute; eauto|]).
    apply List.Forall_nil.
  - exists images, others. split; [exact Hrun|].
    rewrite Himages. by vm_compute.
Defined.

(** ** The Etsy row *)

Section Row.
Implicit Types (f : json) (images names : list json) (k : nat).

Let step (acc : pyresult (list json)) (img_file : json) :=
  image_names ← acc;
  name ← dict_get img_file (py "name") (JStr []);
  Ok (image_names ++ [name]).

Lemma image_names_loop images names :
  Forall is_object images ->
  foldl step (Ok names) images = Ok (names ++ (name_of <$> images)).
Proof.
  intros Himages. revert names.
  induction Himages as [|f images Hf _ IH]; intros names.
  - simpl. by rewrite app_nil_r.
  - destruct f as [| | | | |m]; try done.
    cbn [foldl]. unfold step at 2. simpl. rewrite IH.
    by rewrite <- app_assoc.
Qed.

Lemma image_names_loop_raise images e : foldl step (Raise e) images = Raise e.
Proof. induction images as [|f images IH]; [done|]. simpl. apply IH. Qed.

Lemma image_names_loop_bad images names :
  Exists (fun f => ~ is_object f) images ->
  foldl step (Ok names) images = Raise AttributeError.
Proof.
  intros Himages. revert names.
  induction Himages as [f images Hf|f images _ IH]; intros names.
  - cbn [foldl]. unfold step at 2.
    destruct f as [| | | | |m]; try apply image_names_loop_raise.
    by destruct Hf.
  - cbn [foldl]. unfold step at 2.
    destruct f as [| | | | |m]; try apply image_names_loop_raise.
    simpl. apply IH.
Qed.

Lemma pad_names_lookup names k :
  (length names <= 10)%nat -> (k < 10)%nat ->
  (k < length (pad_names names))%nat
  /\ pad_names names !!! k = default (JStr []) (names !! k).
Proof.
  intros Hlen Hk. unfold pad_names. split.
  - rewrite length_app, length_replicate. lia.
  - destruct (decide (k < length names)%nat) as [Hin|Hout].
    + destruct (lookup_lt_is_Some_2 names k Hin) as [x Hx].
      rewrite Hx. simpl. apply list_lookup_total_correct.
      by rewrite lookup_app_l.
    + rewrite (lookup_ge_None_2 names k) by lia. simpl.
      apply list_lookup_total_correct.
      rewrite lookup_app_r by lia. apply lookup_replicate_2. lia.
Qed.

Lemma image_keys_differ :
  Forall (fun i => Forall (fun j => image_key i = image_key j -> i = j)
                          (seq 0 10))
         (seq 0 10).
Proof. apply (bool_decide_unpack _). by vm_compute. Qed.

Lemma image_key_inj i j :
  (i < 10)%nat -> (j < 10)%nat -> image_key i = image_key j -> i = j.
Proof.
  intros Hi Hj.
  pose proof (proj1 (Forall_forall _ _) image_keys_differ i) as H.
  apply (proj1 (Forall_forall _ _) (H ltac:(apply elem_of_seq; lia))).
  apply elem_of_seq. lia.
Qed.

Lemma image_cells_lookup (g : nat -> json) (base : gmap pystr json)
    (n k : nat) :
  (n <= 10)%nat -> (k < n)%nat ->
  foldl (fun row i => <[image_key i := g i]> row) base (seq 0 n)
  !! image_key k = Some (g k).
Proof.
  intros Hn Hk. induction n as [|n IH]; [lia|].
  rewrite seq_S, foldl_app. simpl.
  destruct (decide (k = n)) as [->|Hne].
  - apply lookup_insert_eq.
  - rewrite lookup_insert_ne; [apply IH; lia|].
    intros Heq. apply image_key_inj in Heq; lia.
Qed.

Lemma image_cells_dom (g : nat -> json) (base : gmap pystr json) (n : nat) :
  dom (foldl (fun row i => <[image_key i := g i]> row) base (seq 0 n))
  = list_to_set (image_key <$> seq 0 n) ∪ dom base.
Proof.
  induction n as [|n IH]; [simpl; by rewrite union_empty_l_L|].
  rewrite seq_S, foldl_app, fmap_app. simpl.
  rewrite dom_insert_L, IH, list_to_set_app_L. simpl.
  apply set_eq. intros x.
  rewrite !elem_of_union, elem_of_singleton, elem_of_empty. tauto.
Qed.

End Row.

(** [product_to_etsy_row], when the first ten image entries are objects,
    returns a row whose keys are exactly the columns that
    [export_products_to_csv] writes; cell [image_k] holds the name of the
    k-th image entry (empty when the entry has none) and is empty from the
    number of entries on; entries after the tenth are not read.  Without
    image files all ten cells are empty. *)
Theorem product_to_etsy_row_images
    (str_float : PrimFloat.float -> pystr) (str_int : Z -> pystr)
    (product : ProductDraft) (image_files : option (list json)) :
  let images := default [] image_files in
  Forall is_object (take 10 images) ->
  exists row,
    product_to_etsy_row str_float str_int product image_files = Ok row
    /\ dom row = list_to_set columns
    /\ (forall k, (k < 10)%nat ->
          row !! image_key k
          = Some (match images !! k with
                  | Some f => name_of f
                  | None => JStr []
                  end))
    /\ product_to_etsy_row str_float str_int product (Some (take 10 images))
       = Ok row.
Proof.
  intros images Himages.
  assert (forall files,
            default [] files = images
            \/ default [] files = take 10 images ->
            match files with
            | Some (f :: l) => image_names_of (f :: l)
            | _ => Ok []
            end = Ok (name_of <$> take 10 images)) as Hnames.
  { intros files Hfiles.
    assert (image_names_of (default [] files)
            = Ok (name_of <$> take 10 images)) as Hloop.
    { unfold image_names_of.
      assert (take 10 (default [] files) = take 10 images) as ->.
      { destruct Hfiles as [->| ->]; [done|].
        by rewrite take_take. }
      by rewrite image_names_loop. }
    by destruct files as [[|f l]|]. }
  unfold product_to_etsy_row.
  rewrite (Hnames image_files) by (by left).
  rewrite (Hnames (Some (take 10 images))) by (by right).
  bind_ok. eexists. split; [reflexivity|]. split; [|split; [|done]].
  - rewrite image_cells_dom, !dom_insert_L, dom_empty_L.
    apply (bool_decide_unpack _). by vm_compute.
  - intros k Hk. rewrite image_cells_lookup by lia. f_equal.
    assert (length (name_of <$> take 10 images) <= 10)%nat as Hlen.
    { rewrite length_fmap, length_take. lia. }
    destruct (pad_names_lookup _ k Hlen Hk) as [Hpad ->].
    rewrite bool_decide_true by done.
    rewrite list_lookup_fmap, lookup_take.
    destruct (decide (k < 10)%nat); [|lia].
    by destruct (images !! k).
Qed.

Lemma product_to_etsy_row_images_witness :
  exists draft row,
    normalize_product ascii_lower ascii_upper int_to_float
      (answer_with None None)
      (context_of_name float_bin (py "f1") (py "ring-resin_12"))
    = Ok draft
    /\ product_to_etsy_row (fun _ => py "12.0") (fun _ => py "1") draft
         (Some [ JObj {[ py "name" := JStr (py "a.jpg") ]}; JObj ∅ ])
       = Ok row
    /\ row !! py "image_1" = Some (JStr (py "a.jpg"))
    /\ row !! py "image_2" = Some (JStr [])
    /\ row !! py "image_10" = Some (JStr []).
Proof.
  assert (exists draft,
            normalize_product ascii_lower ascii_upper int_to_float
              (answer_with None None)
              (context_of_name float_bin (py "f1") (py "ring-resin_12"))
            = Ok draft) as [draft Hdraft].
  { eexists. by vm_compute. }
  destruct (product_to_etsy_row_images (fun _ => py "12.0") (fun _ => py "1")
              draft
              (Some [ JObj {[ py "name" := JStr (py "a.jpg") ]}; JObj ∅ ]))
    as (row & Hrow & _ & Hcells & _).
  - repeat (apply List.Forall_cons; [exact I|]). apply List.Forall_nil.
  - exists draft, row. split; [exact Hdraft|]. split; [exact Hrow|].
    split; [exact (Hcells 0%nat ltac:(lia))|].
    split; [exact (Hcells 1%nat ltac:(lia))|exact (Hcells 9%nat ltac:(lia))].
Defined.

(** One of the first ten image entries that is not an object makes
    [product_to_etsy_row] raise [AttributeError]: no row is returned. *)
Theorem product_to_etsy_row_bad_image
    (str_float : PrimFloat.float -> pystr) (str_int : Z -> pystr)
    (product : ProductDraft) (images : list json) (k : nat) (f : json) :
  (k < 10)%nat -> images !! k = Some f -> ~ is_object f ->
  product_to_etsy_row str_float str_int product (Some images)
  = Raise AttributeError.
Proof.
  intros Hk Hf Hbad. unfold product_to_etsy_row.
  assert (image_names_of images = Raise AttributeError) as Hraise.
  { unfold image_names_of. apply image_names_loop_bad.
    apply Exists_exists. exists f. split; [|done].
    apply list_elem_of_lookup. exists k. rewrite lookup_take.
    by destruct (decide (k < 10)%nat). }
  destruct images as [|f0 l]; [done|]. by rewrite Hraise.
Qed.

Lemma product_to_etsy_row_bad_image_witness :
  exists draft,
    normalize_product ascii_lower ascii_upper int_to_float
      (answer_with None None)
      (context_of_name float_bin (py "f1") (py "ring-resin_12"))
    = Ok draft
    /\ product_to_etsy_row (fun _ => py "12.0") (fun _ => py "1") draft
         (Some [ JObj {[ py "name" := JStr (py "a.jpg") ]};
                 JStr (py "b.jpg") ])
       = Raise AttributeError.
Proof.
  eexists. split; [by vm_compute|].
  apply (product_to_etsy_row_bad_image _ _ _ _ 1%nat (JStr (py "b.jpg")));
    [lia|reflexivity|intros []].
Defined.
